(** * Agent-readiness scoring core: scorer, recommender and analysis engine

    A shallow embedding of [src/engine/scorer.ts], [src/engine/recommender.ts]
    and [src/engine/analyzer.ts] together with the types of
    [src/types/index.ts].

    Conventions of the embedding.
    - A JavaScript [number] that holds a count or an index is a [Z]; the three
      places where the source computes with fractions ([passed / total * 100],
      [passedCount / length >= LEVEL_THRESHOLD] and
      [totalAtNext * LEVEL_THRESHOLD]) are evaluated in IEEE-754 binary64,
      round to nearest even, through the executable [SpecFloat] model.
    - [Map<string, CriterionResult[]>] is a [gmap string (list _)]; only [get]
      and [set] are used on it.
    - An optional field [f?: T] is an [option T]; truthiness of an optional
      boolean is [truthy].
    - A [TypeError] raised by a property access on [undefined] is [None] of an
      [option] result.
    - A criterion check is an effect-free function of its three arguments that
      either resolves with a result or rejects with a thrown value. *)

From Stdlib Require Import ZArith List Ascii String Permutation Sorted Lia.
From Stdlib Require Import Floats.SpecFloat.
From stdpp Require Import base option list gmap strings countable.

Local Open Scope string_scope.
Local Open Scope list_scope.
Local Open Scope Z_scope.

(** ** JavaScript numbers: the binary64 operations the source uses *)

Module Number.

Definition prec : Z := 53.
Definition emax : Z := 1024.

(** An integer seen as a double (exact below [2^53]). *)
Definition of_Z (n : Z) : spec_float := binary_normalize prec emax n 0 false.

Definition div (x y : spec_float) : spec_float := SFdiv prec emax x y.
Definition mul (x y : spec_float) : spec_float := SFmul prec emax x y.

(** [x >= y] *)
Definition geb (x y : spec_float) : bool := SFleb y x.

(** [Math.ceil] of a finite double, as the integer it denotes (the source
    applies [Math.ceil] and [Math.round] to finite values only). *)
Definition ceil (x : spec_float) : Z :=
  match x with
  | S754_finite s m e =>
      let z := cond_Zopp s (Z.pos m) in
      if 0 <=? e then z * 2 ^ e else - ((- z) / 2 ^ (- e))
  | _ => 0
  end.

(** [Math.round] of a finite double: the nearest integer, a tie going to
    the one closer to +infinity. *)
Definition round (x : spec_float) : Z :=
  match x with
  | S754_finite s m e =>
      let z := cond_Zopp s (Z.pos m) in
      if 0 <=? e then z * 2 ^ e else (2 * z + 2 ^ (- e)) / (2 * 2 ^ (- e))
  | _ => 0
  end.

End Number.

(** ** src/types/index.ts *)

Inductive MaturityLevel := L1 | L2 | L3 | L4 | L5.

Definition level_num (l : MaturityLevel) : Z :=
  match l with L1 => 1 | L2 => 2 | L3 => 3 | L4 => 4 | L5 => 5 end.

(** [(l + 1) as MaturityLevel], used by the source only when [l < 5]. *)
Definition level_succ (l : MaturityLevel) : MaturityLevel :=
  match l with L1 => L2 | L2 => L3 | L3 => L4 | L4 => L5 | L5 => L5 end.

Global Instance MaturityLevel_eq_dec : EqDecision MaturityLevel.
Proof. solve_decision. Defined.

Global Instance MaturityLevel_countable : Countable MaturityLevel.
Proof.
  refine (inj_countable'
          (fun l => match l with L1 => 0 | L2 => 1 | L3 => 2 | L4 => 3 | L5 => 4 end%nat)
          (fun n => match n with
                    | O => L1 | 1 => L2 | 2 => L3 | 3 => L4 | _ => L5
                    end%nat) _).
  intros []; reflexivity.
Defined.

(** [a === b] on maturity levels *)
Definition level_eqb (a b : MaturityLevel) : bool := level_num a =? level_num b.

(** The literal [0.8]: the double 0x3FE999999999999A. *)
Definition LEVEL_THRESHOLD : spec_float := S754_finite false 7205759403792794 (-53).

Record ProjectInfo := {
  detectedTypes : list string;
  isMonorepo : bool;
  packages : list string;
}.

Module CriterionResult.
Record t := {
  criterionId : string;
  pass : bool;
  message : string;
  details : option string;
  skipped : option bool;
}.
End CriterionResult.

(** Truthiness of an optional boolean field. *)
Definition truthy (o : option bool) : bool :=
  match o with Some true => true | _ => false end.

(** A value thrown by a check: an [Error] instance with its [message], or any
  other value with its [String(...)] conversion. *)
Inductive Thrown :=
| ThrownError (message : string)
| ThrownValue (asString : string).

(** How a promise settles. *)
Inductive Settled (A : Type) :=
| Resolved (a : A)
| Rejected (e : Thrown).
Arguments Resolved {A} a.
Arguments Rejected {A} e.

Record Evaluation := {
  eval_pass : bool;
  eval_message : string;
  eval_details : option string;
}.

Record LLMClient := {
  evaluate : string -> string -> Settled Evaluation;
}.

Definition CriterionCheckFn : Type :=
  string -> ProjectInfo -> option LLMClient -> Settled CriterionResult.t.

Module Criterion.
Record t := {
  id : string;
  name : string;
  description : string;
  pillarId : string;
  level : MaturityLevel;
  requiresLLM : bool;
  check : CriterionCheckFn;
}.
End Criterion.

Module Pillar.
Record t := {
  id : string;
  name : string;
  description : string;
  icon : string;
  criteria : list Criterion.t;
}.
End Pillar.

Module PillarScore.
Record t := {
  pillarId : string;
  passed : Z;
  total : Z;
  percentage : Z;
}.
End PillarScore.

Module LevelResult.
Record progress := {
  current : Z;
  needed : Z;
  remaining : Z;
  nextLevel : option MaturityLevel;
}.
Record t := {
  level : MaturityLevel;
  nextLevelProgress : progress;
}.
End LevelResult.

Module Effort.
Inductive t := low | medium | high.
End Effort.

Module Impact.
Inductive t := high | medium | low.
End Impact.

Module Recommendation.
Record t := {
  title : string;
  description : string;
  reason : string;
  effort : Effort.t;
  impact : Impact.t;
  pillarId : string;
  criterionId : string;
}.
End Recommendation.

Abbreviation Results := (gmap string (list CriterionResult.t)).

(** ** src/engine/scorer.ts *)

Module Scorer.

(** [results.get(pillar.id) ?? []] *)
Definition pillarResultsOf (results : Results) (pillar : Pillar.t)
  : list CriterionResult.t :=
  default [] (results !! Pillar.id pillar).

Definition scorePillar (results : Results) (pillar : Pillar.t) : PillarScore.t :=
  let pillarResults := pillarResultsOf results pillar in
  let counted :=
    List.filter (fun r => negb (truthy (CriterionResult.skipped r))) pillarResults in
  let passed := Z.of_nat (length (List.filter CriterionResult.pass counted)) in
  let total := Z.of_nat (length counted) in
  let percentage :=
    if 0 <? total
    then Number.round
           (Number.mul (Number.div (Number.of_Z passed) (Number.of_Z total))
                       (Number.of_Z 100))
    else 0 in
  {| PillarScore.pillarId := Pillar.id pillar;
     PillarScore.passed := passed;
     PillarScore.total := total;
     PillarScore.percentage := percentage |}.

Definition calculatePillarScores (pillars : list Pillar.t) (results : Results)
  : list PillarScore.t :=
  List.map (scorePillar results) pillars.

(** An element of [allCriteria]. *)
Record entry := { level : MaturityLevel; pass : bool }.

(** [pillarResults.find((r) => r.criterionId === criterion.id)] *)
Definition findResult (pillarResults : list CriterionResult.t) (criterion : Criterion.t)
  : option CriterionResult.t :=
  List.find (fun r => String.eqb (CriterionResult.criterionId r) (Criterion.id criterion))
            pillarResults.

(** One turn of the inner loop: [continue] on a skipped result, otherwise
    one [push]. *)
Definition collectCriterion (pillarResults : list CriterionResult.t)
           (criterion : Criterion.t) : list entry :=
  let result := findResult pillarResults criterion in
  if truthy (result ≫= CriterionResult.skipped) then []
  else [ {| level := Criterion.level criterion;
            pass := default false (CriterionResult.pass <$> result) |} ].

Definition allCriteria (pillars : list Pillar.t) (results : Results) : list entry :=
  List.flat_map
    (fun pillar =>
       List.flat_map (collectCriterion (pillarResultsOf results pillar))
                     (Pillar.criteria pillar))
    pillars.

Definition levels : list MaturityLevel := [L1; L2; L3; L4; L5].

(** The [byLevel] map, filled by the loop over [levels]. *)
Definition groupByLevel (all : list entry) : gmap MaturityLevel (list entry) :=
  List.fold_left
    (fun byLevel lvl => <[ lvl := List.filter (fun c => level_eqb (level c) lvl) all ]> byLevel)
    levels ∅.

(** The loop that determines the highest passed level. The state is
    [(highestPassed, lastPassedLevel)]; [break] returns the state as it is;
    [byLevel.get(lvl)!.length] on a missing key is the [None] result. *)
Fixpoint walk (byLevel : gmap MaturityLevel (list entry)) (lvls : list MaturityLevel)
         (st : MaturityLevel * MaturityLevel) : option (MaturityLevel * MaturityLevel) :=
  match lvls with
  | [] => Some st
  | lvl :: rest =>
      criteriaAtLevel ← byLevel !! lvl;
      if Z.of_nat (length criteriaAtLevel) =? 0
      then walk byLevel rest (lvl, lvl)
      else
        let passedCount := Z.of_nat (length (List.filter pass criteriaAtLevel)) in
        let passRate :=
          Number.div (Number.of_Z passedCount)
                     (Number.of_Z (Z.of_nat (length criteriaAtLevel))) in
        if Number.geb passRate LEVEL_THRESHOLD
        then walk byLevel rest (lvl, lvl)
        else Some st
  end.

Definition calculateLevel (pillars : list Pillar.t) (results : Results)
  : option LevelResult.t :=
  let all := allCriteria pillars results in
  let byLevel := groupByLevel all in
  st ← walk byLevel levels (L1, L1);
  let highestPassed := fst st in
  let nextLevel :=
    if level_num highestPassed <? 5 then Some (level_succ highestPassed) else None in
  progress ←
    match nextLevel with
    | Some nl =>
        nextLevelCriteria ← byLevel !! nl;
        let totalAtNext := Z.of_nat (length nextLevelCriteria) in
        let current := Z.of_nat (length (List.filter pass nextLevelCriteria)) in
        let needed := Number.ceil (Number.mul (Number.of_Z totalAtNext) LEVEL_THRESHOLD) in
        let remaining := Z.max 0 (needed - current) in
        Some {| LevelResult.current := current;
                LevelResult.needed := needed;
                LevelResult.remaining := remaining;
                LevelResult.nextLevel := nextLevel |}
    | None =>
        Some {| LevelResult.current := 0;
                LevelResult.needed := 0;
                LevelResult.remaining := 0;
                LevelResult.nextLevel := nextLevel |}
    end;
  Some {| LevelResult.level := highestPassed;
          LevelResult.nextLevelProgress := progress |}.

End Scorer.

(** ** src/engine/recommender.ts *)

Module Recommender.

Record info := { description : string; reason : string }.

(** Actionable description and reason keyed by criterion id. The object
    literal is read as a finite map from its own keys (criterion ids are
    not names of [Object.prototype] members). *)
Definition CRITERION_INFO_entries : list (string * info) :=
  [
    ("linter",
     {| description :=
          "Add a linter like ESLint or Biome to enforce code style and catch common mistakes";
        reason :=
          "Linters give agents instant feedback on style issues, preventing CI failures and reducing review churn" |});
    ("formatter",
     {| description :=
          "Configure an auto-formatter such as Prettier or Biome so code style is applied automatically";
        reason :=
          "Auto-formatting removes style debates and lets agents produce consistently formatted code without guesswork" |});
    ("type-checker",
     {| description :=
          "Enable strict type checking (e.g. strict mode in tsconfig.json, mypy, or pyright)";
        reason :=
          "Strict types help agents catch errors at compile time instead of at runtime, dramatically improving code reliability" |});
    ("pre-commit-hooks",
     {| description :=
          "Set up pre-commit hooks with Husky, Lefthook, or pre-commit to run checks before every commit";
        reason :=
          "Pre-commit hooks provide a fast feedback loop so agents discover issues before pushing code" |});
    ("editorconfig",
     {| description :=
          "Create an .editorconfig file to standardize indentation, line endings, and charset across editors";
        reason :=
          "EditorConfig ensures agents produce files with correct whitespace and encoding regardless of tooling" |});
    ("test-framework",
     {| description :=
          "Configure a test framework such as Jest, Vitest, pytest, or Go testing with a config file";
        reason :=
          "A configured test framework lets agents write and run tests to verify their changes automatically" |});
    ("test-files",
     {| description :=
          "Add test files alongside source code following standard naming conventions (*.test.*, *.spec.*, etc.)";
        reason :=
          "Existing tests give agents examples to follow and a safety net to validate new code against" |});
    ("test-script",
     {| description :=
          "Define a 'test' script in package.json or a test target in a Makefile so tests can be run with a single command";
        reason :=
          "A standard test command allows agents to verify changes without guessing how to run the test suite" |});
    ("coverage",
     {| description :=
          "Set up code coverage reporting in your test framework configuration";
        reason :=
          "Coverage metrics help agents understand which parts of the codebase are well-tested and which need attention" |});
    ("e2e-tests",
     {| description :=
          "Add end-to-end or integration tests using Playwright, Cypress, or a similar framework";
        reason :=
          "E2E tests give agents confidence that the whole application works correctly after changes, not just individual units" |});
    ("readme",
     {| description :=
          "Create a comprehensive README.md with project overview, setup instructions, and usage examples";
        reason :=
          "A good README helps agents understand the project context, conventions, and how to get started quickly" |});
    ("contributing",
     {| description :=
          "Add a CONTRIBUTING.md with development workflow, coding standards, and PR guidelines";
        reason :=
          "Contributing guidelines teach agents the team's workflow so their PRs match expectations from the start" |});
    ("api-docs",
     {| description :=
          "Add API documentation using OpenAPI/Swagger specs, JSDoc, TypeDoc, or a dedicated docs folder";
        reason :=
          "API docs let agents understand available endpoints, data shapes, and contracts without reading every source file" |});
    ("codeowners",
     {| description :=
          "Create a CODEOWNERS file to define ownership for different parts of the codebase";
        reason :=
          "CODEOWNERS helps agents understand who to tag for reviews and which areas have strict oversight" |});
    ("ai-context",
     {| description :=
          "Add AI context files such as CLAUDE.md, .cursorrules, or .github/copilot-instructions.md with project-specific guidance";
        reason :=
          "AI context files give agents tailored instructions about architecture decisions, patterns to follow, and pitfalls to avoid" |});
    ("architecture-docs",
     {| description :=
          "Create architecture documentation (ARCHITECTURE.md or docs/adr/) describing system design and decisions";
        reason :=
          "Architecture docs help agents make design choices consistent with the existing system instead of guessing" |});
    ("lock-file",
     {| description :=
          "Commit a dependency lock file (package-lock.json, bun.lockb, yarn.lock, poetry.lock, etc.)";
        reason :=
          "Lock files ensure agents install the exact same dependency versions, preventing 'works on my machine' issues" |});
    ("containerization",
     {| description :=
          "Add a Dockerfile, docker-compose.yml, or .devcontainer configuration for reproducible environments";
        reason :=
          "Containerization gives agents a fully reproducible environment, eliminating setup discrepancies" |});
    ("env-docs",
     {| description :=
          "Create a .env.example or .env.template documenting all required environment variables";
        reason :=
          "Environment variable documentation lets agents understand required configuration without accessing secrets" |});
    ("setup-script",
     {| description :=
          "Add a setup script (Makefile, scripts/setup.sh, or npm run setup) to automate development environment setup";
        reason :=
          "A one-command setup lets agents bootstrap the project quickly and correctly every time" |});
    ("version-pinned",
     {| description :=
          "Pin the runtime version with .nvmrc, .node-version, .python-version, .tool-versions, or .mise.toml";
        reason :=
          "Pinned runtime versions prevent agents from hitting version incompatibilities during execution" |});
    ("ci-config",
     {| description :=
          "Set up a CI pipeline configuration (GitHub Actions, GitLab CI, CircleCI, or similar)";
        reason :=
          "CI pipelines give agents automated feedback on whether their changes pass all quality gates" |});
    ("ci-tests",
     {| description :=
          "Ensure your CI pipeline runs the test suite on every push and pull request";
        reason :=
          "Running tests in CI means agents get immediate feedback if their changes break existing functionality" |});
    ("ci-linters",
     {| description :=
          "Add linting and formatting checks to your CI pipeline";
        reason :=
          "CI lint checks catch style issues agents may miss locally, keeping the codebase consistent" |});
    ("build-step",
     {| description :=
          "Add an automated build step to your CI pipeline or package.json scripts";
        reason :=
          "An automated build step verifies that agents' changes compile and bundle correctly before merging" |});
    ("deploy-pipeline",
     {| description :=
          "Configure a deploy pipeline or stage in your CI/CD system for automated deployments";
        reason :=
          "Automated deployments let agents' changes reach production safely through a controlled pipeline" |});
    ("branch-protection",
     {| description :=
          "Document or configure branch protection rules requiring reviews and passing checks before merging";
        reason :=
          "Branch protection ensures agents' PRs go through proper review and validation before reaching main" |});
    ("outdated-deps",
     {| description :=
          "Update critically outdated dependencies to their latest stable versions";
        reason :=
          "Current dependencies reduce compatibility issues agents encounter and ensure security patches are applied" |});
    ("dead-code",
     {| description :=
          "Configure dead code detection using Knip, ts-unused-exports, or a similar tool";
        reason :=
          "Dead code detection helps agents avoid modifying unused code and keeps the codebase lean" |});
    ("bundle-analysis",
     {| description :=
          "Set up bundle analysis with webpack-bundle-analyzer, @next/bundle-analyzer, or a similar tool";
        reason :=
          "Bundle analysis helps agents understand the impact of adding dependencies on application size" |});
    ("security-scanning",
     {| description :=
          "Configure security scanning with CodeQL, Snyk, Trivy, or Semgrep in your CI pipeline";
        reason :=
          "Security scanning catches vulnerabilities agents might introduce before they reach production" |});
    ("secrets-detection",
     {| description :=
          "Set up secrets detection using Gitleaks, detect-secrets, or GitGuardian";
        reason :=
          "Secrets detection prevents agents from accidentally committing API keys, tokens, or credentials" |});
    ("license",
     {| description :=
          "Add a LICENSE file specifying the project's open-source or proprietary license";
        reason :=
          "A clear license file helps agents understand what code and dependencies they can use" |});
    ("security-policy",
     {| description :=
          "Create a SECURITY.md file describing how to report vulnerabilities";
        reason :=
          "A security policy gives agents guidance on handling security-sensitive changes appropriately" |});
    ("dep-updates",
     {| description :=
          "Configure automated dependency updates with Dependabot or Renovate";
        reason :=
          "Automated dependency updates keep the project current so agents work with well-maintained libraries" |});
    ("readme-quality",
     {| description :=
          "Improve your README content: add clear sections for installation, usage, architecture, and contributing";
        reason :=
          "A high-quality README gives agents rich context about the project beyond just file presence" |});
    ("docs-agent-friendliness",
     {| description :=
          "Improve documentation to be more AI-agent-friendly: explain project structure, coding conventions, and testing patterns";
        reason :=
          "Agent-friendly docs help autonomous coding agents make correct changes without constant human guidance" |});
    ("test-quality",
     {| description :=
          "Improve test quality: add descriptive names, cover edge cases, and test behavior rather than implementation";
        reason :=
          "High-quality tests give agents confidence that their changes work correctly and don't break existing behavior" |});
    ("naming-conventions",
     {| description :=
          "Establish and document consistent naming conventions for files, functions, and variables";
        reason :=
          "Consistent naming lets agents predict correct patterns when writing new code, reducing review friction" |});
    ("inline-docs-quality",
     {| description :=
          "Add meaningful inline documentation and comments to key modules and public APIs";
        reason :=
          "Inline docs help agents understand intent and edge cases when modifying complex logic" |});
    ("code-structure",
     {| description :=
          "Organize code into a consistent folder structure with clear naming conventions";
        reason :=
          "Consistent structure lets agents predict where to find and place code without trial and error" |});
    ("file-size",
     {| description :=
          "Break down large files and functions into smaller, focused modules";
        reason :=
          "Smaller files are easier for agents to understand, modify, and test without unintended side effects" |})
  ].

Definition CRITERION_INFO : gmap string info := list_to_map CRITERION_INFO_entries.

(** Effort estimate keyed by criterion id. *)
Definition EFFORT_MAP_entries : list (string * Effort.t) :=
  [
    ("editorconfig", Effort.low);
    ("license", Effort.low);
    ("readme", Effort.low);
    ("contributing", Effort.low);
    ("codeowners", Effort.low);
    ("security-policy", Effort.low);
    ("ai-context", Effort.low);
    ("env-docs", Effort.low);
    ("lock-file", Effort.low);
    ("version-pinned", Effort.low);
    ("linter", Effort.medium);
    ("formatter", Effort.medium);
    ("type-checker", Effort.medium);
    ("pre-commit-hooks", Effort.medium);
    ("test-framework", Effort.medium);
    ("test-files", Effort.medium);
    ("test-script", Effort.medium);
    ("ci-config", Effort.medium);
    ("ci-tests", Effort.medium);
    ("ci-linters", Effort.medium);
    ("build-step", Effort.medium);
    ("setup-script", Effort.medium);
    ("api-docs", Effort.medium);
    ("dead-code", Effort.medium);
    ("secrets-detection", Effort.medium);
    ("dep-updates", Effort.medium);
    ("branch-protection", Effort.medium);
    ("outdated-deps", Effort.medium);
    ("e2e-tests", Effort.high);
    ("coverage", Effort.high);
    ("containerization", Effort.high);
    ("deploy-pipeline", Effort.high);
    ("security-scanning", Effort.high);
    ("architecture-docs", Effort.high);
    ("bundle-analysis", Effort.high);
    ("readme-quality", Effort.high);
    ("docs-agent-friendliness", Effort.high);
    ("test-quality", Effort.high);
    ("naming-conventions", Effort.medium);
    ("inline-docs-quality", Effort.high);
    ("code-structure", Effort.high);
    ("file-size", Effort.high)
  ].

Definition EFFORT_MAP : gmap string Effort.t := list_to_map EFFORT_MAP_entries.

Definition IMPACT_ORDER (i : Impact.t) : Z :=
  match i with Impact.high => 0 | Impact.medium => 1 | Impact.low => 2 end.

Definition EFFORT_ORDER (e : Effort.t) : Z :=
  match e with Effort.low => 0 | Effort.medium => 1 | Effort.high => 2 end.

Definition determineImpact (criterionLevel currentLevel : MaturityLevel) : Impact.t :=
  let nextLevel := level_num currentLevel + 1 in
  if level_num criterionLevel =? nextLevel then Impact.high
  else if level_num criterionLevel =? level_num currentLevel + 2 then Impact.medium
  else Impact.low.

(** An element of [failedItems]. *)
Record failedItem := {
  pillarId : string;
  criterionId : string;
  criterionName : string;
  criterionLevel : MaturityLevel;
}.

(** One turn of the inner collecting loop:
    [if (result && !result.pass && !result.skipped) failedItems.push(...)]. *)
Definition collectFailed (pillar : Pillar.t) (pillarResults : list CriterionResult.t)
           (criterion : Criterion.t) : list failedItem :=
  match Scorer.findResult pillarResults criterion with
  | Some result =>
      if negb (CriterionResult.pass result) && negb (truthy (CriterionResult.skipped result))
      then [ {| pillarId := Pillar.id pillar;
                criterionId := Criterion.id criterion;
                criterionName := Criterion.name criterion;
                criterionLevel := Criterion.level criterion |} ]
      else []
  | None => []
  end.

Definition failedItems (pillars : list Pillar.t) (results : Results) : list failedItem :=
  List.flat_map
    (fun pillar =>
       List.flat_map (collectFailed pillar (Scorer.pillarResultsOf results pillar))
                     (Pillar.criteria pillar))
    pillars.

Definition dquote : string := String "034"%char EmptyString.

(** The callback of [failedItems.map]. *)
Definition toRecommendation (currentLevel : MaturityLevel) (item : failedItem)
  : Recommendation.t :=
  let info := CRITERION_INFO !! criterionId item in
  let effort := default Effort.medium (EFFORT_MAP !! criterionId item) in
  let impact := determineImpact (criterionLevel item) currentLevel in
  {| Recommendation.title := criterionName item;
     Recommendation.description :=
       default
         (String.append "Address the failing "
            (String.append dquote
               (String.append (criterionId item)
                  (String.append dquote " criterion to improve agent readiness"))))
         (description <$> info);
     Recommendation.reason :=
       default
         "Meeting this criterion improves the codebase's readiness for autonomous AI agents"
         (reason <$> info);
     Recommendation.effort := effort;
     Recommendation.impact := impact;
     Recommendation.pillarId := pillarId item;
     Recommendation.criterionId := criterionId item |}.

(** [failedItems.find((f) => f.criterionId === a.criterionId && f.pillarId === a.pillarId)] *)
Definition findFailed (items : list failedItem) (a : Recommendation.t) : option failedItem :=
  List.find
    (fun f => String.eqb (criterionId f) (Recommendation.criterionId a)
              && String.eqb (pillarId f) (Recommendation.pillarId a))
    items.

(** The comparator handed to [sort]. Reading [criterionLevel] of an
    [undefined] find result is the [None] outcome. *)
Definition compareRecommendations (items : list failedItem) (nextLevel : Z)
           (a b : Recommendation.t) : option Z :=
  aFailed ← findFailed items a;
  bFailed ← findFailed items b;
  let aIsNext := if level_num (criterionLevel aFailed) =? nextLevel then 0 else 1 in
  let bIsNext := if level_num (criterionLevel bFailed) =? nextLevel then 0 else 1 in
  if negb (aIsNext =? bIsNext) then Some (aIsNext - bIsNext)
  else
    let impactDiff :=
      IMPACT_ORDER (Recommendation.impact a) - IMPACT_ORDER (Recommendation.impact b) in
    if negb (impactDiff =? 0) then Some impactDiff
    else Some (EFFORT_ORDER (Recommendation.effort a)
               - EFFORT_ORDER (Recommendation.effort b)).

(** [Array.prototype.sort] with a comparator that may throw: a stable
    sort, here by insertion. Each element, taken from the right, is put in
    front of the first element of the sorted rest that it does not
    exceed. *)
Fixpoint insertBy {A : Type} (cmp : A -> A -> option Z) (x : A) (sorted : list A)
  : option (list A) :=
  match sorted with
  | [] => Some [x]
  | y :: rest =>
      c ← cmp x y;
      if c <=? 0 then Some (x :: y :: rest)
      else cons y <$> insertBy cmp x rest
  end.

Fixpoint sortBy {A : Type} (cmp : A -> A -> option Z) (l : list A) : option (list A) :=
  match l with
  | [] => Some []
  | x :: rest => sorted ← sortBy cmp rest; insertBy cmp x sorted
  end.

Definition generateRecommendations (pillars : list Pillar.t) (results : Results)
           (_pillarScores : list PillarScore.t) (levelResult : LevelResult.t)
  : option (list Recommendation.t) :=
  let currentLevel := LevelResult.level levelResult in
  let items := failedItems pillars results in
  let recommendations := List.map (toRecommendation currentLevel) items in
  let nextLevel := level_num currentLevel + 1 in
  sorted ← sortBy (compareRecommendations items nextLevel) recommendations;
  Some (take 10 sorted).

End Recommender.

(** ** src/engine/analyzer.ts *)

Module Analyzer.

Definition OnPillarStart : Type := Pillar.t -> unit.
Definition OnPillarComplete : Type := Pillar.t -> list CriterionResult.t -> unit.

Module Options.
Record t := {
  aiEnabled : option bool;
  llmClient : option LLMClient;
  onPillarStart : option OnPillarStart;
  onPillarComplete : option OnPillarComplete;
}.
End Options.

(** The fields of the class. *)
Record AnalysisEngine := {
  pillars : list Pillar.t;
  repoPath : string;
  projectInfo : ProjectInfo;
  aiEnabled : bool;
  llmClient : option LLMClient;
  onPillarStart : option OnPillarStart;
  onPillarComplete : option OnPillarComplete;
}.

(** The constructor. *)
Definition new (pillars : list Pillar.t) (repoPath : string) (projectInfo : ProjectInfo)
           (options : option Options.t) : AnalysisEngine :=
  {| pillars := pillars;
     repoPath := repoPath;
     projectInfo := projectInfo;
     aiEnabled := default false (options ≫= Options.aiEnabled);
     llmClient := options ≫= Options.llmClient;
     onPillarStart := options ≫= Options.onPillarStart;
     onPillarComplete := options ≫= Options.onPillarComplete |}.

(** What a run does that can be observed from outside, in order: the
    progress callbacks it calls and the checks it invokes, each with the
    arguments of the call. The callbacks are taken to return normally. *)
Inductive Event :=
| PillarStarted (pillar : Pillar.t)
| CheckInvoked (criterion : Criterion.t) (repoPath : string) (projectInfo : ProjectInfo)
               (llmClient : option LLMClient)
| PillarCompleted (pillar : Pillar.t) (results : list CriterionResult.t).

(** A computation that logs events and returns a value. *)
Definition Eff (A : Type) : Type := (list Event * A)%type.

Definition ret {A} (a : A) : Eff A := ([], a).

Definition bind {A B} (m : Eff A) (k : A -> Eff B) : Eff B :=
  let '(log1, a) := m in
  let '(log2, b) := k a in
  (log1 ++ log2, b).

Definition emit (e : Event) : Eff unit := ([e], tt).

Definition trace {A} (m : Eff A) : list Event := fst m.
Definition value {A} (m : Eff A) : A := snd m.

Global Instance Eff_ret : MRet Eff := @ret.
Global Instance Eff_bind : MBind Eff := fun A B k m => bind m k.

(** [await criterion.check(this.repoPath, this.projectInfo, this.llmClient)] *)
Definition invokeCheck (this : AnalysisEngine) (criterion : Criterion.t)
  : Eff (Settled CriterionResult.t) :=
  emit (CheckInvoked criterion (repoPath this) (projectInfo this) (llmClient this));;
  ret (Criterion.check criterion (repoPath this) (projectInfo this) (llmClient this)).

(** [error instanceof Error ? error.message : String(error)] *)
Definition errorMessageOf (error : Thrown) : string :=
  match error with
  | ThrownError message => message
  | ThrownValue asString => asString
  end.

Definition runCriterion (this : AnalysisEngine) (criterion : Criterion.t)
  : Eff CriterionResult.t :=
  if Criterion.requiresLLM criterion && negb (aiEnabled this)
  then
    ret {| CriterionResult.criterionId := Criterion.id criterion;
           CriterionResult.pass := false;
           CriterionResult.message := "Requires --ai flag";
           CriterionResult.details := None;
           CriterionResult.skipped := Some true |}
  else
    settled ← invokeCheck this criterion;
    match settled with
    | Resolved result => ret result
    | Rejected error =>
        let errorMessage := errorMessageOf error in
        ret {| CriterionResult.criterionId := Criterion.id criterion;
               CriterionResult.pass := false;
               CriterionResult.message := String.append "Check failed: " errorMessage;
               CriterionResult.details := None;
               CriterionResult.skipped := None |}
    end.

(** [Promise.all(pillar.criteria.map((criterion) => this.runCriterion(criterion)))]:
    the calls are started in the order of the criteria and the results are
    delivered in that order. *)
Fixpoint runAll (this : AnalysisEngine) (criteria : list Criterion.t)
  : Eff (list CriterionResult.t) :=
  match criteria with
  | [] => ret []
  | criterion :: rest =>
      r ← runCriterion this criterion;
      rs ← runAll this rest;
      ret (r :: rs)
  end.

(** [this.onPillarStart?.(pillar)] and [this.onPillarComplete?.(pillar, results)] *)
Definition notify {F : Type} (callback : option F) (e : Event) : Eff unit :=
  match callback with
  | Some _ => emit e
  | None => ret tt
  end.

(** The loop of [run] over the pillars that remain. *)
Fixpoint runPillars (this : AnalysisEngine) (remaining : list Pillar.t) (allResults : Results)
  : Eff Results :=
  match remaining with
  | [] => ret allResults
  | pillar :: rest =>
      notify (onPillarStart this) (PillarStarted pillar);;
      criteriaResults ← runAll this (Pillar.criteria pillar);
      let allResults := <[ Pillar.id pillar := criteriaResults ]> allResults in
      notify (onPillarComplete this) (PillarCompleted pillar criteriaResults);;
      runPillars this rest allResults
  end.

Definition run (this : AnalysisEngine) : Eff Results :=
  runPillars this (pillars this) ∅.

End Analyzer.


(** ** src/types/index.ts: the report *)

Module ReportData.
Record t := {
  repoName : string;
  repoPath : string;
  projectInfo : ProjectInfo;
  pillars : list Pillar.t;
  results : Results;
  levelResult : LevelResult.t;
  pillarScores : list PillarScore.t;
  recommendations : list Recommendation.t;
}.
End ReportData.

(** ** src/engine/serializer.ts *)

Module Serializer.

Module SerializedCriterion.
Record t := {
  id : string;
  name : string;
  description : string;
  pillarId : string;
  level : Z;
  requiresLLM : bool;
}.
End SerializedCriterion.

Module SerializedPillar.
Record t := {
  id : string;
  name : string;
  description : string;
  icon : string;
  criteria : list SerializedCriterion.t;
}.
End SerializedPillar.

(** [results] is the plain object [Object.fromEntries] makes of the map: a
    finite map from the same keys to the same lists. *)
Module SerializedReportData.
Record t := {
  repoName : string;
  repoPath : string;
  projectInfo : ProjectInfo;
  pillars : list SerializedPillar.t;
  results : Results;
  levelResult : LevelResult.t;
  pillarScores : list PillarScore.t;
  recommendations : list Recommendation.t;
}.
End SerializedReportData.

Definition serializeCriterion (c : Criterion.t) : SerializedCriterion.t :=
  {| SerializedCriterion.id := Criterion.id c;
     SerializedCriterion.name := Criterion.name c;
     SerializedCriterion.description := Criterion.description c;
     SerializedCriterion.pillarId := Criterion.pillarId c;
     SerializedCriterion.level := level_num (Criterion.level c);
     SerializedCriterion.requiresLLM := Criterion.requiresLLM c |}.

Definition serializePillar (p : Pillar.t) : SerializedPillar.t :=
  {| SerializedPillar.id := Pillar.id p;
     SerializedPillar.name := Pillar.name p;
     SerializedPillar.description := Pillar.description p;
     SerializedPillar.icon := Pillar.icon p;
     SerializedPillar.criteria := List.map serializeCriterion (Pillar.criteria p) |}.

Definition serializeReport (reportData : ReportData.t) : SerializedReportData.t :=
  {| SerializedReportData.repoName := ReportData.repoName reportData;
     SerializedReportData.repoPath := ReportData.repoPath reportData;
     SerializedReportData.projectInfo := ReportData.projectInfo reportData;
     SerializedReportData.pillars := List.map serializePillar (ReportData.pillars reportData);
     SerializedReportData.results := ReportData.results reportData;
     SerializedReportData.levelResult := ReportData.levelResult reportData;
     SerializedReportData.pillarScores := ReportData.pillarScores reportData;
     SerializedReportData.recommendations := ReportData.recommendations reportData |}.

End Serializer.

(** ** src/cli/index.ts: [main]

    [main] is modelled from the resolved path on. What it asks of the
    outside (the file system, the configuration loader, the project
    detector, the dashboard server) is gathered in a [World]; what it
    prints, writes or has the engine do is a list of [Output]s; the spinner
    and the colouring of the messages are left out, and the renderer and the
    console are taken to return normally. *)

Module Cli.

Inductive Format := text | json.

Module CLIOptions.
Record t := {
  path : string;
  ai : bool;
  apiKey : option string;
  ci : bool;
  format : Format;
  minLevel : option spec_float;
  noColor : bool;
  init : bool;
  web : bool;
}.
End CLIOptions.

Module Config.
Record t := {
  pillars : option (gmap string bool);
  criteria : option (gmap string bool);
  thresholds : option (gmap string spec_float);
  aiEnabled : option bool;
  apiKey : option string;
  apiBaseUrl : option string;
}.
End Config.

Module Env.
Record t := {
  CI : option string;
  KODUS_API_KEY : option string;
  OPENAI_API_KEY : option string;
}.
End Env.

Record LLMClientOptions := {
  clientApiKey : string;
  clientApiBaseUrl : option string;
}.

Module World.
Record t := {
  (** [process.env] *)
  env : Env.t;
  (** [path.resolve(options.path)], its [path.basename] and the path of
      [.kodus-readiness.yml] in it *)
  repoPath : string;
  repoName : string;
  configPath : string;
  (** whether [fs.access] finds the repository and the configuration file *)
  repoExists : bool;
  configExists : bool;
  (** how [fs.writeFile] of the default configuration ends *)
  writeConfig : option Thrown;
  (** what [loadConfig] returns (it catches every error) *)
  config : Config.t;
  (** how [detectProject] settles *)
  detected : Settled ProjectInfo;
  (** the shipped catalogue and the client factory *)
  ALL_PILLARS : list Pillar.t;
  createLLMClient : LLMClientOptions -> LLMClient;
  (** how [startServer] and [openBrowser] settle *)
  startServer : Serializer.SerializedReportData.t -> Settled string;
  openBrowser : string -> option Thrown;
}.
End World.

Inductive Output :=
| ConsoleError (message : string)
| ConsoleWarn (message : string)
| ConsoleLog (message : string)
| WroteFile (path : string)
| Engine (events : list Analyzer.Event)
| PrintedJson (payload : Serializer.SerializedReportData.t)
| Rendered (report : ReportData.t) (noColor ci : bool).

(** How the process ends: with an exit code, or kept alive by the
    dashboard server behind [await new Promise(() => {})]. *)
Inductive Ending :=
| Exit (code : Z)
| Serving.

(** Truthiness of an optional string. *)
Definition truthyString (s : option string) : bool :=
  match s with
  | Some s => negb (String.eqb s "")
  | None => false
  end.

(** [a || b] on optional strings *)
Definition orElse (a b : option string) : option string :=
  if truthyString a then a else b.

(** [options.ai || config.aiEnabled || false] *)
Definition resolveAiEnabled (options : CLIOptions.t) (config : Config.t) : bool :=
  CLIOptions.ai options || default false (Config.aiEnabled config).

(** [options.apiKey || config.apiKey || process.env.KODUS_API_KEY ||
    process.env.OPENAI_API_KEY] *)
Definition resolveApiKey (options : CLIOptions.t) (config : Config.t) (env : Env.t)
  : option string :=
  orElse (orElse (orElse (CLIOptions.apiKey options) (Config.apiKey config))
                 (Env.KODUS_API_KEY env))
         (Env.OPENAI_API_KEY env).

(** [aiEnabled && apiKey ? createLLMClient({...}) : undefined] *)
Definition resolveLLMClient (w : World.t) (options : CLIOptions.t) : option LLMClient :=
  let config := World.config w in
  let aiEnabled := resolveAiEnabled options config in
  match resolveApiKey options config (World.env w) with
  | Some apiKey =>
      if aiEnabled && truthyString (Some apiKey)
      then Some (World.createLLMClient w
                   {| clientApiKey := apiKey;
                      clientApiBaseUrl := Config.apiBaseUrl config |})
      else None
  | None => None
  end.

(** [toggles![id] !== false] *)
Definition enabledIn (toggles : gmap string bool) (id : string) : bool :=
  match toggles !! id with
  | Some false => false
  | _ => true
  end.

(** The pillars and criteria left by the configuration toggles. *)
Definition filterPillars (config : Config.t) (pillars : list Pillar.t) : list Pillar.t :=
  let pillars :=
    match Config.pillars config with
    | Some toggles => List.filter (fun p => enabledIn toggles (Pillar.id p)) pillars
    | None => pillars
    end in
  match Config.criteria config with
  | Some toggles =>
      List.map
        (fun p =>
           {| Pillar.id := Pillar.id p;
              Pillar.name := Pillar.name p;
              Pillar.description := Pillar.description p;
              Pillar.icon := Pillar.icon p;
              Pillar.criteria :=
                List.filter (fun c => enabledIn toggles (Criterion.id c))
                            (Pillar.criteria p) |})
        pillars
  | None => pillars
  end.

(** The engine [main] constructs; both progress callbacks are supplied. *)
Definition engineOf (w : World.t) (options : CLIOptions.t) (projectInfo : ProjectInfo)
  : Analyzer.AnalysisEngine :=
  Analyzer.new (filterPillars (World.config w) (World.ALL_PILLARS w))
               (World.repoPath w) projectInfo
               (Some {| Analyzer.Options.aiEnabled :=
                          Some (resolveAiEnabled options (World.config w));
                        Analyzer.Options.llmClient := resolveLLMClient w options;
                        Analyzer.Options.onPillarStart := Some (fun _ => tt);
                        Analyzer.Options.onPillarComplete := Some (fun _ _ => tt) |}).

(** [options.minLevel !== undefined && levelResult.level < options.minLevel] *)
Definition belowMinLevel (options : CLIOptions.t) (levelResult : LevelResult.t) : bool :=
  match CLIOptions.minLevel options with
  | Some minLevel =>
      SFltb (Number.of_Z (level_num (LevelResult.level levelResult))) minLevel
  | None => false
  end.

(** The [catch] of the outer [try]. *)
Definition fail (out : list Output) (error : Thrown) : list Output * Ending :=
  (out ++ [ConsoleError (String.append "Error: " (Analyzer.errorMessageOf error))], Exit 1).

(** The [TypeError] of reading a property of [undefined]. *)
Definition typeError : Thrown := ThrownError "Cannot read properties of undefined".

(** Steps p and q: the dashboard and the minimum-level gate. *)
Definition finish (w : World.t) (options : CLIOptions.t) (reportData : ReportData.t)
           (out : list Output) : list Output * Ending :=
  let gate (out : list Output) :=
    if belowMinLevel options (ReportData.levelResult reportData)
    then (out, Exit 1) else (out, Exit 0) in
  if CLIOptions.web options then
    let serialized := Serializer.serializeReport reportData in
    let failed (out : list Output) (err : Thrown) :=
      gate (out ++ [ConsoleError
                      (String "010"%char
                         (String.append "Failed to start web dashboard: "
                                        (Analyzer.errorMessageOf err)))]) in
    match World.startServer w serialized with
    | Resolved url =>
        let out := out ++ [ConsoleLog ""; ConsoleLog (String.append "  Dashboard: " url);
                           ConsoleLog "  Press Ctrl+C to stop the server."; ConsoleLog ""] in
        match World.openBrowser w url with
        | None => (out, Serving)
        | Some err => failed out err
        end
    | Rejected err => failed out err
    end
  else gate out.

(** Steps c to o: from the configuration to the printed report. *)
Definition analyze (w : World.t) (options : CLIOptions.t) : list Output * Ending :=
  let isCI := CLIOptions.ci options
              || match Env.CI (World.env w) with
                 | Some v => String.eqb v "true"
                 | None => false
                 end in
  let config := World.config w in
  let aiEnabled := resolveAiEnabled options config in
  let apiKey := resolveApiKey options config (World.env w) in
  let out :=
    if aiEnabled && negb (truthyString apiKey)
    then [ConsoleWarn "Warning: --ai flag is set but no API key found. Set --api-key, KODUS_API_KEY, or OPENAI_API_KEY env variable."]
    else [] in
  let pillars := filterPillars config (World.ALL_PILLARS w) in
  match World.detected w with
  | Rejected error => fail out error
  | Resolved projectInfo =>
      let engine := engineOf w options projectInfo in
      let ran := Analyzer.run engine in
      let results := Analyzer.value ran in
      let out := out ++ [Engine (Analyzer.trace ran)] in
      let pillarScores := Scorer.calculatePillarScores pillars results in
      match Scorer.calculateLevel pillars results with
      | None => fail out typeError
      | Some levelResult =>
          match Recommender.generateRecommendations pillars results pillarScores levelResult with
          | None => fail out typeError
          | Some recommendations =>
              let reportData :=
                {| ReportData.repoName := World.repoName w;
                   ReportData.repoPath := World.repoPath w;
                   ReportData.projectInfo := projectInfo;
                   ReportData.pillars := pillars;
                   ReportData.results := results;
                   ReportData.levelResult := levelResult;
                   ReportData.pillarScores := pillarScores;
                   ReportData.recommendations := recommendations |} in
              let out :=
                out ++ [match CLIOptions.format options with
                        | json => PrintedJson (Serializer.serializeReport reportData)
                        | text => Rendered reportData (CLIOptions.noColor options) isCI
                        end] in
              finish w options reportData out
          end
      end
  end.

Definition main (w : World.t) (options : CLIOptions.t) : list Output * Ending :=
  if negb (World.repoExists w) then
    ([ConsoleError (String.append "Error: path does not exist: " (World.repoPath w))], Exit 1)
  else if CLIOptions.init options then
    if World.configExists w then
      ([ConsoleError (String.append "Config file already exists: " (World.configPath w))],
       Exit 1)
    else
      match World.writeConfig w with
      | Some error => fail [] error
      | None =>
          ([WroteFile (World.configPath w);
            ConsoleLog (String.append "Created config file: " (World.configPath w))],
           Exit 0)
      end
  else analyze w options.

End Cli.

(** ** src/engine/config.ts: [loadConfig] *)

Module ConfigFile.

Definition CONFIG_FILENAMES : list string :=
  [".kodus-readiness.yml"; ".kodus-readiness.yaml"].

(** What [fs.readFile] followed by [YAML.parse] gives for one candidate
    path: the parsed document ([null] for an empty one), or a thrown value
    together with its [code] property when it has one. *)
Inductive ReadResult :=
| Parsed (parsed : option Cli.Config.t)
| Threw (error : Thrown) (code : option string).

(** [err instanceof Error && "code" in err] *)
Definition isNodeError (error : Thrown) (code : option string) : bool :=
  match error, code with
  | ThrownError _, Some _ => true
  | _, _ => false
  end.

(** The empty object [{}]. *)
Definition emptyConfig : Cli.Config.t :=
  {| Cli.Config.pillars := None;
     Cli.Config.criteria := None;
     Cli.Config.thresholds := None;
     Cli.Config.aiEnabled := None;
     Cli.Config.apiKey := None;
     Cli.Config.apiBaseUrl := None |}.

Definition parseWarning (filePath : string) (error : Thrown) : string :=
  String.append "Warning: failed to parse config file "
    (String.append Recommender.dquote
       (String.append filePath
          (String.append Recommender.dquote
             (String.append ": " (Analyzer.errorMessageOf error))))).

(** The loop over the candidate file names; the result is the warnings
    written with [console.warn] and the configuration returned. *)
Fixpoint tryFiles (join : string -> string -> string) (read : string -> ReadResult)
         (repoPath : string) (filenames : list string) : list string * Cli.Config.t :=
  match filenames with
  | [] => ([], emptyConfig)
  | filename :: rest =>
      let filePath := join repoPath filename in
      match read filePath with
      | Parsed parsed => ([], default emptyConfig parsed)
      | Threw err code =>
          if isNodeError err code
             && match code with Some c => String.eqb c "ENOENT" | None => false end
          then tryFiles join read repoPath rest
          else ([parseWarning filePath err], emptyConfig)
      end
  end.

Definition loadConfig (join : string -> string -> string) (read : string -> ReadResult)
           (repoPath : string) : list string * Cli.Config.t :=
  tryFiles join read repoPath CONFIG_FILENAMES.

End ConfigFile.

(** * Specification-side definitions *)

(** ** The level buckets and the pass rule, in the words of the specification *)

Module LevelSpec.

(** The bucket of a level: the flattened, skip-filtered entries at it. *)
Definition bucket (pillars : list Pillar.t) (results : Results) (lvl : MaturityLevel)
  : list Scorer.entry :=
  List.filter (fun c => level_eqb (Scorer.level c) lvl) (Scorer.allCriteria pillars results).

Definition passedCount (b : list Scorer.entry) : Z :=
  Z.of_nat (length (List.filter Scorer.pass b)).

Definition bucketSize (b : list Scorer.entry) : Z := Z.of_nat (length b).

(** [passedCount / bucketSize] as the double the source computes. *)
Definition passRate (b : list Scorer.entry) : spec_float :=
  Number.div (Number.of_Z (passedCount b)) (Number.of_Z (bucketSize b)).

(** An empty bucket passes vacuously; any other passes when its pass rate
    is at least the threshold. *)
Definition passes (b : list Scorer.entry) : bool :=
  match b with
  | [] => true
  | _ :: _ => Number.geb (passRate b) LEVEL_THRESHOLD
  end.

(** The sequential gate over a list of levels: the last level of the
    unbroken chain of passing levels, [floor] when the chain is empty. *)
Fixpoint gate (ok : MaturityLevel -> bool) (lvls : list MaturityLevel) (floor : MaturityLevel)
  : MaturityLevel :=
  match lvls with
  | [] => floor
  | lvl :: rest => if ok lvl then gate ok rest lvl else floor
  end.

(** [ceil(n * 4 / 5)] over the integers. *)
Definition neededExact (n : Z) : Z := (4 * n + 4) / 5.

End LevelSpec.

(** ** Pillar scores *)

Module ScoreSpec.

(** [Math.round((passed / total) * 100)] as the source computes it. *)
Definition percentageOf (passed total : Z) : Z :=
  Number.round (Number.mul (Number.div (Number.of_Z passed) (Number.of_Z total))
                           (Number.of_Z 100)).

(** [100 * passed / total] rounded to the nearest integer over the
    rationals, a tie going up. *)
Definition percentageExact (passed total : Z) : Z :=
  (200 * passed + total) / (2 * total).

(** [addsSkipped rs rs']: the list [rs'] is [rs] with results whose
    [skipped] is truthy put in at any positions. *)
Inductive addsSkipped : list CriterionResult.t -> list CriterionResult.t -> Prop :=
| addsSkipped_nil : addsSkipped [] []
| addsSkipped_keep r rs rs' : addsSkipped rs rs' -> addsSkipped (r :: rs) (r :: rs')
| addsSkipped_add s rs rs' :
    truthy (CriterionResult.skipped s) = true ->
    addsSkipped rs rs' -> addsSkipped rs (s :: rs').

(** A pillar with its list of criteria replaced. *)
Definition withCriteria (p : Pillar.t) (criteria : list Criterion.t) : Pillar.t :=
  {| Pillar.id := Pillar.id p;
     Pillar.name := Pillar.name p;
     Pillar.description := Pillar.description p;
     Pillar.icon := Pillar.icon p;
     Pillar.criteria := criteria |}.

End ScoreSpec.

(** ** Agreement of the double arithmetic with exact arithmetic, checked by
    evaluation on every bucket size up to a bound *)

Module FloatCheck.

(** [p / n >= 0.8] in doubles against [4 n <= 5 p] over the integers. *)
Definition thresholdAgrees (n p : Z) : bool :=
  Bool.eqb (Number.geb (Number.div (Number.of_Z p) (Number.of_Z n)) LEVEL_THRESHOLD)
           (4 * n <=? 5 * p).

(** [f n p] holds for every [1 <= n <= bound] and [p <= n]. *)
Definition triangle (f : nat -> nat -> bool) (bound : nat) : bool :=
  forallb (fun n => forallb (f n) (seq 0 (S n))) (seq 1 bound).

(** [Math.ceil(n * 0.8)] in doubles against [ceil(4 n / 5)] over the integers. *)
Definition neededAgrees (n : Z) : bool :=
  Number.ceil (Number.mul (Number.of_Z n) LEVEL_THRESHOLD) =? LevelSpec.neededExact n.

(** [f n] holds for every [n <= bound]. *)
Definition upTo (f : nat -> bool) (bound : nat) : bool :=
  forallb f (seq 0 (S bound)).

(** [Math.round(p / n * 100)] in doubles against the exact rounding. *)
Definition percentageAgrees (n p : Z) : bool :=
  ScoreSpec.percentageOf p n =? ScoreSpec.percentageExact p n.

End FloatCheck.

(** ** Concrete inputs: the end-to-end scenarios of the specification *)

Module Scenario.

Definition info : ProjectInfo :=
  {| detectedTypes := []; isMonorepo := false; packages := [] |}.

Definition result (id : string) (pass : bool) (skipped : option bool) : CriterionResult.t :=
  {| CriterionResult.criterionId := id;
     CriterionResult.pass := pass;
     CriterionResult.message := "checked";
     CriterionResult.details := None;
     CriterionResult.skipped := skipped |}.

(** A criterion whose check settles the same way whatever it is given. *)
Definition criterion (pillar id : string) (lvl : MaturityLevel) (requiresLLM : bool)
           (outcome : Settled CriterionResult.t) : Criterion.t :=
  {| Criterion.id := id;
     Criterion.name := id;
     Criterion.description := "";
     Criterion.pillarId := pillar;
     Criterion.level := lvl;
     Criterion.requiresLLM := requiresLLM;
     Criterion.check := fun _ _ _ => outcome |}.

Definition passing (pillar id : string) (lvl : MaturityLevel) : Criterion.t :=
  criterion pillar id lvl false (Resolved (result id true None)).

Definition failing (pillar id : string) (lvl : MaturityLevel) : Criterion.t :=
  criterion pillar id lvl false (Resolved (result id false None)).

Definition pillar (id : string) (criteria : list Criterion.t) : Pillar.t :=
  {| Pillar.id := id;
     Pillar.name := id;
     Pillar.description := "";
     Pillar.icon := "";
     Pillar.criteria := criteria |}.

(** The results a pillar's checks resolve with, in criterion order. *)
Definition settledResults (p : Pillar.t) : list CriterionResult.t :=
  List.flat_map
    (fun c => match Criterion.check c "" info None with
              | Resolved r => [r]
              | Rejected _ => []
              end)
    (Pillar.criteria p).

Definition resultsOf (pillars : list Pillar.t) : Results :=
  list_to_map (List.map (fun p => (Pillar.id p, settledResults p)) pillars).

(** Scenario A: five pillars, each with a passing level-1 criterion and a
    failing level-2 criterion. *)
Definition pillarsA : list Pillar.t :=
  List.map (fun id => pillar id [passing id "basic" L1; failing id "next" L2])
           ["style"; "testing"; "docs"; "ci"; "security"].

Definition resultsA : Results := resultsOf pillarsA.

(** Scenario B: one pillar with one level-3 criterion whose only result is
    skipped. *)
Definition pillarsB : list Pillar.t :=
  [pillar "docs" [criterion "docs" "readme-quality" L3 true
                            (Resolved (result "readme-quality" false None))]].

Definition resultsB : Results :=
  {[ "docs" := [result "readme-quality" false (Some true)] ]}.

(** Scenario C: ten criteria at level 2, eight of them passing. *)
Definition pillarsC : list Pillar.t :=
  [pillar "style"
     (List.map (fun id => passing "style" id L2)
               ["c1"; "c2"; "c3"; "c4"; "c5"; "c6"; "c7"; "c8"]
      ++ List.map (fun id => failing "style" id L2) ["c9"; "c10"])].

Definition resultsC : Results := resultsOf pillarsC.

(** Scenario D: a criterion whose check throws. *)
Definition crashing (pillar id : string) (lvl : MaturityLevel) : Criterion.t :=
  criterion pillar id lvl false (Rejected (ThrownError "ENOENT: no such file")).

Definition pillarsD : list Pillar.t :=
  [pillar "style" [passing "style" "linter" L1; crashing "style" "formatter" L1];
   pillar "testing" [failing "testing" "test-files" L2]].

(** A criterion that needs the evaluator: its check calls
    [llmClient.evaluate], which throws when no client was handed in. *)
Definition llmCheck (id : string) : CriterionCheckFn :=
  fun _ _ llmClient =>
    match llmClient with
    | Some client =>
        match evaluate client "Is the README useful?" "README.md" with
        | Resolved e =>
            Resolved {| CriterionResult.criterionId := id;
                        CriterionResult.pass := eval_pass e;
                        CriterionResult.message := eval_message e;
                        CriterionResult.details := eval_details e;
                        CriterionResult.skipped := None |}
        | Rejected error => Rejected error
        end
    | None =>
        Rejected (ThrownError "Cannot read properties of undefined (reading 'evaluate')")
    end.

Definition llmCriterion : Criterion.t :=
  {| Criterion.id := "readme-quality";
     Criterion.name := "README quality";
     Criterion.description := "";
     Criterion.pillarId := "docs";
     Criterion.level := L3;
     Criterion.requiresLLM := true;
     Criterion.check := llmCheck "readme-quality" |}.

Definition approvingClient : LLMClient :=
  {| evaluate := fun _ _ =>
       Resolved {| eval_pass := true; eval_message := "Looks good"; eval_details := None |} |}.

Definition optionsWith (aiEnabled : option bool) (llmClient : option LLMClient)
  : Analyzer.Options.t :=
  {| Analyzer.Options.aiEnabled := aiEnabled;
     Analyzer.Options.llmClient := llmClient;
     Analyzer.Options.onPillarStart := None;
     Analyzer.Options.onPillarComplete := None |}.

Definition engineWith (pillars : list Pillar.t) (aiEnabled : option bool)
           (llmClient : option LLMClient) : Analyzer.AnalysisEngine :=
  Analyzer.new pillars "/repo" info (Some (optionsWith aiEnabled llmClient)).

(** A ranking input: achieved level 1; failing criteria at levels 2 and 3
    with efforts low, medium and high, one of them without table entries. *)
Definition pillarsR : list Pillar.t :=
  [pillar "docs" [failing "docs" "architecture-docs" L3; failing "docs" "readme" L3;
                  failing "docs" "custom-check" L2; passing "docs" "contributing" L1];
   pillar "style" [failing "style" "linter" L2; failing "style" "editorconfig" L2;
                   failing "style" "formatter" L2; failing "style" "naming-conventions" L4];
   pillar "testing" [failing "testing" "coverage" L2]].

Definition resultsR : Results := resultsOf pillarsR.

Definition levelOne : LevelResult.t :=
  {| LevelResult.level := L1;
     LevelResult.nextLevelProgress :=
       {| LevelResult.current := 0;
          LevelResult.needed := 4;
          LevelResult.remaining := 4;
          LevelResult.nextLevel := Some L2 |} |}.

End Scenario.

(** ** Ranking, in the words of the specification *)

Module RankSpec.

(** Every criterion of the catalogue with its pillar, in catalogue order. *)
Definition catalogue (pillars : list Pillar.t) : list (Pillar.t * Criterion.t) :=
  List.flat_map (fun p => List.map (pair p) (Pillar.criteria p)) pillars.

(** The key the ranker identifies a criterion by. *)
Definition idsOf (pc : Pillar.t * Criterion.t) : string * string :=
  (Pillar.id (fst pc), Criterion.id (snd pc)).

(** The criterion's matched result exists, has [pass = false] and is not
    skipped. *)
Definition fails (results : Results) (pc : Pillar.t * Criterion.t) : bool :=
  match Scorer.findResult (Scorer.pillarResultsOf results (fst pc)) (snd pc) with
  | Some r => negb (CriterionResult.pass r) && negb (truthy (CriterionResult.skipped r))
  | None => false
  end.

Definition itemOf (pc : Pillar.t * Criterion.t) : Recommender.failedItem :=
  {| Recommender.pillarId := Pillar.id (fst pc);
     Recommender.criterionId := Criterion.id (snd pc);
     Recommender.criterionName := Criterion.name (snd pc);
     Recommender.criterionLevel := Criterion.level (snd pc) |}.

Definition itemIds (item : Recommender.failedItem) : string * string :=
  (Recommender.pillarId item, Recommender.criterionId item).

(** The failed criteria, one candidate each, in catalogue order. *)
Definition candidates (pillars : list Pillar.t) (results : Results)
  : list Recommender.failedItem :=
  List.map itemOf (List.filter (fails results) (catalogue pillars)).







(** Stable insertion sort by a total preorder given as a boolean test. *)
Fixpoint insert {A : Type} (le : A -> A -> bool) (x : A) (sorted : list A) : list A :=
  match sorted with
  | [] => [x]
  | y :: rest => if le x y then x :: y :: rest else y :: insert le x rest
  end.

Fixpoint isort {A : Type} (le : A -> A -> bool) (l : list A) : list A :=
  match l with
  | [] => []
  | x :: rest => insert le x (isort le rest)
  end.


End RankSpec.

(** ** The results the engine makes up *)

Module EngineSpec.

(** The result the engine makes up for a check that threw. *)
Definition checkFailed (criterion : Criterion.t) (error : Thrown) : CriterionResult.t :=
  {| CriterionResult.criterionId := Criterion.id criterion;
     CriterionResult.pass := false;
     CriterionResult.message := String.append "Check failed: " (Analyzer.errorMessageOf error);
     CriterionResult.details := None;
     CriterionResult.skipped := None |}.

(** The result the engine makes up for a criterion it does not run. *)
Definition notRun (criterion : Criterion.t) : CriterionResult.t :=
  {| CriterionResult.criterionId := Criterion.id criterion;
     CriterionResult.pass := false;
     CriterionResult.message := "Requires --ai flag";
     CriterionResult.details := None;
     CriterionResult.skipped := Some true |}.

End EngineSpec.

(** ** A run of the engine, in closed form *)

Module RunSpec.

(** The last pillar of the list with the given id. *)
Definition lastWithId (key : string) (pillars : list Pillar.t) : option Pillar.t :=
  List.find (fun p => String.eqb (Pillar.id p) key) (List.rev pillars).

(** The engine leaves the criterion out. *)
Definition gated (this : Analyzer.AnalysisEngine) (c : Criterion.t) : bool :=
  Criterion.requiresLLM c && negb (Analyzer.aiEnabled this).

(** The results of a pillar's criteria, each run on its own. *)
Definition resultsOf (this : Analyzer.AnalysisEngine) (p : Pillar.t)
  : list CriterionResult.t :=
  List.map (fun c => Analyzer.value (Analyzer.runCriterion this c)) (Pillar.criteria p).

(** The invocation of a criterion's check with the engine's arguments. *)
Definition invocation (this : Analyzer.AnalysisEngine) (c : Criterion.t) : Analyzer.Event :=
  Analyzer.CheckInvoked c (Analyzer.repoPath this) (Analyzer.projectInfo this)
                        (Analyzer.llmClient this).

(** The criteria whose checks a trace invokes, in order. *)
Definition invoked (events : list Analyzer.Event) : list Analyzer.Event :=
  List.filter (fun e => match e with Analyzer.CheckInvoked _ _ _ _ => true | _ => false end)
              events.

(** What the run of one pillar does: the start notification, the checks of
    the criteria it does not leave out, the completion notification with the
    pillar's results. *)
Definition pillarBlock (this : Analyzer.AnalysisEngine) (p : Pillar.t) : list Analyzer.Event :=
  match Analyzer.onPillarStart this with
  | Some _ => [Analyzer.PillarStarted p]
  | None => []
  end
  ++ List.map (invocation this)
              (List.filter (fun c => negb (gated this c)) (Pillar.criteria p))
  ++ match Analyzer.onPillarComplete this with
     | Some _ => [Analyzer.PillarCompleted p (resultsOf this p)]
     | None => []
     end.

End RunSpec.

(** ** Comparing two result sets *)

Module Improve.

(** The matched result [r'] is no worse than [r]: the criterion is skipped
    in both or in neither, and a pass is kept. *)
Definition noWorse (r r' : option CriterionResult.t) : Prop :=
  truthy (r ≫= CriterionResult.skipped) = truthy (r' ≫= CriterionResult.skipped) /\
  (default false (CriterionResult.pass <$> r) = true ->
   default false (CriterionResult.pass <$> r') = true).

(** The same on the flattened entries. *)
Definition entryNoWorse (e e' : Scorer.entry) : Prop :=
  Scorer.level e = Scorer.level e' /\ (Scorer.pass e = true -> Scorer.pass e' = true).

End Improve.

(** ** Ranking by impact and effort alone *)

Module TwoKeys.




End TwoKeys.

(** ** The configuration toggles, in closed form *)

Module Toggle.

(** The pillar is not switched off. *)
Definition pillarOn (config : Cli.Config.t) (p : Pillar.t) : bool :=
  match Cli.Config.pillars config with
  | Some toggles => Cli.enabledIn toggles (Pillar.id p)
  | None => true
  end.

(** The criterion is not switched off. *)
Definition criterionOn (config : Cli.Config.t) (c : Criterion.t) : bool :=
  match Cli.Config.criteria config with
  | Some toggles => Cli.enabledIn toggles (Criterion.id c)
  | None => true
  end.

(** A criterion of the catalogue is kept with its pillar. *)
Definition kept (config : Cli.Config.t) (pc : Pillar.t * Criterion.t) : bool :=
  pillarOn config (fst pc) && criterionOn config (snd pc).

(** A pillar with the criteria the configuration leaves it. *)
Definition restrict (config : Cli.Config.t) (p : Pillar.t) : Pillar.t :=
  match Cli.Config.criteria config with
  | Some toggles =>
      {| Pillar.id := Pillar.id p;
         Pillar.name := Pillar.name p;
         Pillar.description := Pillar.description p;
         Pillar.icon := Pillar.icon p;
         Pillar.criteria :=
           List.filter (fun c => Cli.enabledIn toggles (Criterion.id c)) (Pillar.criteria p) |}
  | None => p
  end.



(** The output is a file written. *)
Definition isWrite (o : Cli.Output) : bool :=
  match o with Cli.WroteFile _ => true | _ => false end.


End Toggle.

(** ** Concrete inputs for the command line *)

Module CliScenario.

Definition env : Cli.Env.t :=
  {| Cli.Env.CI := None; Cli.Env.KODUS_API_KEY := None; Cli.Env.OPENAI_API_KEY := None |}.

(** The [testing] pillar and the [formatter] criterion are switched off. *)
Definition config : Cli.Config.t :=
  {| Cli.Config.pillars := Some {[ "testing" := false ]};
     Cli.Config.criteria := Some {[ "formatter" := false ]};
     Cli.Config.thresholds := None;
     Cli.Config.aiEnabled := None;
     Cli.Config.apiKey := None;
     Cli.Config.apiBaseUrl := None |}.

Definition shipped : list Pillar.t :=
  Scenario.pillarsD ++ [Scenario.pillar "docs" [Scenario.llmCriterion]].

Definition world : Cli.World.t :=
  {| Cli.World.env := env;
     Cli.World.repoPath := "/repo";
     Cli.World.repoName := "repo";
     Cli.World.configPath := "/repo/.kodus-readiness.yml";
     Cli.World.repoExists := true;
     Cli.World.configExists := false;
     Cli.World.writeConfig := None;
     Cli.World.config := config;
     Cli.World.detected := Resolved Scenario.info;
     Cli.World.ALL_PILLARS := shipped;
     Cli.World.createLLMClient := fun _ => Scenario.approvingClient;
     Cli.World.startServer := fun _ => Resolved "http://localhost:3000";
     Cli.World.openBrowser := fun _ => None |}.

Definition options (ai web : bool) (minLevel : option Z) : Cli.CLIOptions.t :=
  {| Cli.CLIOptions.path := ".";
     Cli.CLIOptions.ai := ai;
     Cli.CLIOptions.apiKey := None;
     Cli.CLIOptions.ci := true;
     Cli.CLIOptions.format := Cli.json;
     Cli.CLIOptions.minLevel := Number.of_Z <$> minLevel;
     Cli.CLIOptions.noColor := false;
     Cli.CLIOptions.init := false;
     Cli.CLIOptions.web := web |}.

(** The same world without any toggle. *)
Definition noConfig : Cli.Config.t :=
  {| Cli.Config.pillars := None;
     Cli.Config.criteria := None;
     Cli.Config.thresholds := None;
     Cli.Config.aiEnabled := None;
     Cli.Config.apiKey := None;
     Cli.Config.apiBaseUrl := None |}.

Definition withConfig (w : Cli.World.t) (config : Cli.Config.t) : Cli.World.t :=
  {| Cli.World.env := Cli.World.env w;
     Cli.World.repoPath := Cli.World.repoPath w;
     Cli.World.repoName := Cli.World.repoName w;
     Cli.World.configPath := Cli.World.configPath w;
     Cli.World.repoExists := Cli.World.repoExists w;
     Cli.World.configExists := Cli.World.configExists w;
     Cli.World.writeConfig := Cli.World.writeConfig w;
     Cli.World.config := config;
     Cli.World.detected := Cli.World.detected w;
     Cli.World.ALL_PILLARS := Cli.World.ALL_PILLARS w;
     Cli.World.createLLMClient := Cli.World.createLLMClient w;
     Cli.World.startServer := Cli.World.startServer w;
     Cli.World.openBrowser := Cli.World.openBrowser w |}.

(** Both criteria of the [style] pillar are switched off. *)
Definition styleOff : Cli.Config.t :=
  {| Cli.Config.pillars := None;
     Cli.Config.criteria := Some {[ "linter" := false; "formatter" := false ]};
     Cli.Config.thresholds := None;
     Cli.Config.aiEnabled := None;
     Cli.Config.apiKey := None;
     Cli.Config.apiBaseUrl := None |}.

(** One failing level-1 criterion, and its result turned into a pass. *)
Definition lonePillar : list Pillar.t :=
  [Scenario.pillar "style" [Scenario.failing "style" "linter" L1]].

Definition loneFailed : Results := {[ "style" := [Scenario.result "linter" false None] ]}.
Definition lonePassed : Results := {[ "style" := [Scenario.result "linter" true None] ]}.

(** Scenario A with the checks of each pillar exchanged. *)
Definition pillarsA' : list Pillar.t :=
  List.map (fun id => Scenario.pillar id [Scenario.failing id "basic" L1;
                                          Scenario.passing id "next" L2])
           ["style"; "testing"; "docs"; "ci"; "security"].

End CliScenario.

(** * Properties of the scorer *)

Section ScorerFacts.

Import LevelSpec.

Lemma level_eqb_eq (a b : MaturityLevel) : level_eqb a b = true <-> a = b.
Proof.
  unfold level_eqb. rewrite Z.eqb_eq.
  split; [destruct a, b; simpl; intros H; try reflexivity; discriminate | intros ->; reflexivity].
Qed.

Lemma level_num_range (l : MaturityLevel) : 1 <= level_num l <= 5.
Proof. destruct l; simpl; lia. Qed.

Lemma level_num_succ (l : MaturityLevel) :
  level_num l < 5 -> level_num (level_succ l) = level_num l + 1.
Proof. destruct l; simpl; lia. Qed.

Lemma groupByLevel_lookup (all : list Scorer.entry) (lvl : MaturityLevel) :
  Scorer.groupByLevel all !! lvl
  = Some (List.filter (fun c => level_eqb (Scorer.level c) lvl) all).
Proof. destruct lvl; reflexivity. Qed.

Lemma passes_test (b : list Scorer.entry) :
  passes b =
  if Z.of_nat (length b) =? 0 then true
  else Number.geb (Number.div (Number.of_Z (Z.of_nat (length (List.filter Scorer.pass b))))
                              (Number.of_Z (Z.of_nat (length b))))
                  LEVEL_THRESHOLD.
Proof. destruct b; reflexivity. Qed.

(** The loop of the source computes the gate. *)
Lemma walk_gate (all : list Scorer.entry) (lvls : list MaturityLevel)
      (hp lp : MaturityLevel) :
  exists lp',
    Scorer.walk (Scorer.groupByLevel all) lvls (hp, lp)
    = Some (gate (fun l => passes (List.filter (fun c => level_eqb (Scorer.level c) l) all))
                 lvls hp, lp').
Proof.
  revert hp lp. induction lvls as [|lvl rest IH]; intros hp lp; simpl.
  - eauto.
  - rewrite groupByLevel_lookup. simpl. rewrite passes_test.
    destruct (Z.of_nat _ =? 0); [apply IH|].
    destruct (Number.geb _ _); [apply IH | eauto].
Qed.

Lemma gate_reaches (ok : MaturityLevel -> bool) (L : MaturityLevel) :
  (forall L', level_num L' <= level_num L -> ok L' = true) ->
  level_num L <= level_num (gate ok Scorer.levels L1).
Proof.
  intros H. unfold Scorer.levels. simpl.
  destruct L; simpl in *;
    repeat match goal with
           | |- context [ok ?l] =>
               first [ rewrite (H l) by (simpl; lia) | destruct (ok l) ]
           end; simpl; lia.
Qed.

Lemma gate_stops (ok : MaturityLevel -> bool) (L : MaturityLevel) :
  ok L = false ->
  (forall L', level_num L' < level_num L -> ok L' = true) ->
  level_num (gate ok Scorer.levels L1) = Z.max 1 (level_num L - 1).
Proof.
  intros Hfail H. unfold Scorer.levels. simpl.
  destruct L; simpl in *;
    repeat match goal with
           | |- context [ok ?l] =>
               first [ rewrite Hfail | rewrite (H l) by (simpl; lia) ]
           end; simpl; lia.
Qed.

Lemma passedCount_bounds (b : list Scorer.entry) : 0 <= passedCount b <= bucketSize b.
Proof.
  unfold passedCount, bucketSize.
  pose proof (List.filter_length_le Scorer.pass b). lia.
Qed.

Lemma triangle_spec (f : nat -> nat -> bool) (bound : nat) :
  FloatCheck.triangle f bound = true ->
  forall n p : nat, (1 <= n <= bound)%nat -> (p <= n)%nat -> f n p = true.
Proof.
  unfold FloatCheck.triangle. intros H n p Hn Hp.
  rewrite List.forallb_forall in H.
  assert (Hin : In n (seq 1 bound)) by (apply List.in_seq; lia).
  specialize (H _ Hin). rewrite List.forallb_forall in H.
  apply H. apply List.in_seq. lia.
Qed.

Lemma upTo_spec (f : nat -> bool) (bound : nat) :
  FloatCheck.upTo f bound = true -> forall n : nat, (n <= bound)%nat -> f n = true.
Proof.
  unfold FloatCheck.upTo. intros H n Hn.
  rewrite List.forallb_forall in H. apply H. apply List.in_seq. lia.
Qed.

Lemma thresholdAgrees_checked :
  FloatCheck.triangle
    (fun n p => FloatCheck.thresholdAgrees (Z.of_nat n) (Z.of_nat p)) 128 = true.
Proof. vm_compute. reflexivity. Qed.

Lemma neededAgrees_checked :
  FloatCheck.upTo (fun n => FloatCheck.neededAgrees (Z.of_nat n)) 1024 = true.
Proof. vm_compute. reflexivity. Qed.

Lemma threshold_exact (n p : Z) :
  0 < n <= 128 -> 0 <= p <= n ->
  Number.geb (Number.div (Number.of_Z p) (Number.of_Z n)) LEVEL_THRESHOLD
  = (4 * n <=? 5 * p).
Proof.
  intros Hn Hp.
  pose proof (triangle_spec _ _ thresholdAgrees_checked (Z.to_nat n) (Z.to_nat p)) as H.
  cbv beta in H. rewrite !Z2Nat.id in H by lia.
  apply Bool.eqb_prop. apply H; lia.
Qed.

Lemma needed_exact (n : Z) :
  0 <= n <= 1024 ->
  Number.ceil (Number.mul (Number.of_Z n) LEVEL_THRESHOLD) = neededExact n.
Proof.
  intros Hn.
  pose proof (upTo_spec _ _ neededAgrees_checked (Z.to_nat n)) as H.
  cbv beta in H. rewrite Z2Nat.id in H by lia.
  apply Z.eqb_eq. apply H. lia.
Qed.

Lemma passes_exact (b : list Scorer.entry) :
  (length b <= 128)%nat ->
  passes b = true <-> (b = [] \/ 4 * bucketSize b <= 5 * passedCount b).
Proof.
  intros Hlen. destruct b as [|c b'].
  - simpl. split; auto.
  - unfold passes, passRate.
    pose proof (passedCount_bounds (c :: b')) as Hb.
    rewrite threshold_exact.
    + rewrite Z.leb_le. split; [auto | intros [?|?]; [discriminate | assumption]].
    + unfold bucketSize in *. simpl length in *. lia.
    + assumption.
Qed.

(** [calculateLevel] never fails, and its result in closed form. *)
Lemma calculateLevel_closed (pillars : list Pillar.t) (results : Results) :
  let hp := gate (fun l => passes (bucket pillars results l)) Scorer.levels L1 in
  Scorer.calculateLevel pillars results
  = Some {| LevelResult.level := hp;
            LevelResult.nextLevelProgress :=
              if level_num hp <? 5
              then
                let b := bucket pillars results (level_succ hp) in
                let needed := Number.ceil (Number.mul (Number.of_Z (bucketSize b))
                                                      LEVEL_THRESHOLD) in
                {| LevelResult.current := passedCount b;
                   LevelResult.needed := needed;
                   LevelResult.remaining := Z.max 0 (needed - passedCount b);
                   LevelResult.nextLevel := Some (level_succ hp) |}
              else
                {| LevelResult.current := 0;
                   LevelResult.needed := 0;
                   LevelResult.remaining := 0;
                   LevelResult.nextLevel := None |} |}.
Proof.
  intros hp. unfold Scorer.calculateLevel.
  destruct (walk_gate (Scorer.allCriteria pillars results) Scorer.levels L1 L1)
    as [lp Hwalk].
  change (gate _ Scorer.levels L1) with hp in Hwalk. clearbody hp.
  rewrite Hwalk. cbn [mbind option_bind fst].
  destruct (level_num hp <? 5).
  - rewrite groupByLevel_lookup. reflexivity.
  - reflexivity.
Qed.

(** C1. Level computation is a sequential gate with an inclusive 0.8
    threshold. [calculateLevel] always returns; writing [ok L] for "the
    skip-filtered bucket of level [L] is empty or its pass rate
    [passedCount / bucketSize] is [>= 0.8]": (1) every level at or below
    which all levels are [ok] is reached; (2) at the first level that is not
    [ok] the walk stops, so the result is the level just below it (level 1
    when level 1 itself fails, the baseline); (3) a bucket of ten with eight
    passing is [ok]; (4) for buckets of up to 128 entries the double
    comparison is exactly [4 * bucketSize <= 5 * passedCount]. *)
Theorem calculateLevel_sequential_gate (pillars : list Pillar.t) (results : Results) :
  exists lr,
    Scorer.calculateLevel pillars results = Some lr /\
    let ok L := passes (bucket pillars results L) in
    (forall L, (forall L', level_num L' <= level_num L -> ok L' = true) ->
               level_num L <= level_num (LevelResult.level lr)) /\
    (forall L, ok L = false ->
               (forall L', level_num L' < level_num L -> ok L' = true) ->
               level_num (LevelResult.level lr) = Z.max 1 (level_num L - 1)) /\
    (forall b, bucketSize b = 10 -> passedCount b = 8 -> passes b = true) /\
    (forall b, (length b <= 128)%nat ->
               passes b = true <-> (b = [] \/ 4 * bucketSize b <= 5 * passedCount b)).
Proof.
  rewrite calculateLevel_closed. eexists. split; [reflexivity|].
  cbn [LevelResult.level].
  split; [|split; [|split]].
  - intros L HL. apply (gate_reaches (fun l => passes (bucket pillars results l))). exact HL.
  - intros L Hf HL.
    apply (gate_stops (fun l => passes (bucket pillars results l))); assumption.
  - intros b Hn Hp. apply passes_exact.
    + unfold bucketSize in Hn. lia.
    + right. lia.
  - intros b Hlen. apply passes_exact. exact Hlen.
Qed.

(** C3. The progress toward the next level. [nextLevel] is [level + 1]
    below level 5 and [null] at level 5. When it is a level, [current] is
    the passed count of that level's skip-filtered bucket, [needed] is
    [ceil(bucketSize * 0.8)] (equal to the exact [ceil(4 * bucketSize / 5)]
    for buckets of up to 1024 entries) and [remaining] is
    [max(0, needed - current)]; when it is [null] the three are 0. Five
    pillars, each with a passing level-1 and a failing level-2 criterion,
    give level 1, next level 2 and 4 remaining. *)
Theorem calculateLevel_nextLevelProgress (pillars : list Pillar.t) (results : Results) :
  exists lr,
    Scorer.calculateLevel pillars results = Some lr /\
    let lvl := LevelResult.level lr in
    let np := LevelResult.nextLevelProgress lr in
    (level_num lvl < 5 ->
       exists nl, LevelResult.nextLevel np = Some nl /\ level_num nl = level_num lvl + 1) /\
    (level_num lvl = 5 -> LevelResult.nextLevel np = None) /\
    (forall nl, LevelResult.nextLevel np = Some nl ->
       let b := bucket pillars results nl in
       LevelResult.current np = passedCount b /\
       LevelResult.needed np
       = Number.ceil (Number.mul (Number.of_Z (bucketSize b)) LEVEL_THRESHOLD) /\
       (bucketSize b <= 1024 -> LevelResult.needed np = neededExact (bucketSize b)) /\
       LevelResult.remaining np
       = Z.max 0 (LevelResult.needed np - LevelResult.current np)) /\
    (LevelResult.nextLevel np = None ->
       LevelResult.current np = 0 /\ LevelResult.needed np = 0 /\
       LevelResult.remaining np = 0) /\
    Scorer.calculateLevel Scenario.pillarsA Scenario.resultsA
    = Some {| LevelResult.level := L1;
              LevelResult.nextLevelProgress :=
                {| LevelResult.current := 0;
                   LevelResult.needed := 4;
                   LevelResult.remaining := 4;
                   LevelResult.nextLevel := Some L2 |} |}.
Proof.
  rewrite calculateLevel_closed. eexists. split; [reflexivity|].
  cbn [LevelResult.level LevelResult.nextLevelProgress].
  set (hp := gate _ _ _). clearbody hp.
  destruct (level_num hp <? 5) eqn:E;
    cbn [LevelResult.nextLevel LevelResult.current LevelResult.needed
         LevelResult.remaining].
  - apply Z.ltb_lt in E.
    split; [|split; [|split; [|split]]].
    + intros _. exists (level_succ hp). split; [reflexivity | apply level_num_succ; exact E].
    + intros H5. lia.
    + intros nl Hnl. injection Hnl as <-.
      split; [reflexivity|]. split; [reflexivity|]. split; [|reflexivity].
      intros Hsz. apply needed_exact. unfold bucketSize in *. lia.
    + intros Hnone. discriminate.
    + vm_compute. reflexivity.
  - apply Z.ltb_ge in E. pose proof (level_num_range hp) as Hr.
    split; [|split; [|split; [|split]]].
    + intros Hlt. lia.
    + intros _. reflexivity.
    + intros nl Hnl. discriminate.
    + intros _. repeat split.
    + vm_compute. reflexivity.
Qed.

(** ** Per-pillar scores *)

Lemma map_lookup {A B} (f : A -> B) (l : list A) (i : nat) :
  List.map f l !! i = f <$> (l !! i).
Proof.
  revert i. induction l as [|x l IH]; intros [|i]; simpl; try reflexivity. apply IH.
Qed.

Lemma filter_filter_andb {A} (f g : A -> bool) (l : list A) :
  List.filter f (List.filter g l) = List.filter (fun x => f x && g x) l.
Proof.
  induction l as [|x l IH]; simpl; [reflexivity|].
  destruct (g x); simpl.
  - rewrite Bool.andb_true_r. destruct (f x); simpl; congruence.
  - rewrite Bool.andb_false_r. exact IH.
Qed.

Lemma filter_length_split {A} (g : A -> bool) (l : list A) :
  (length (List.filter g l) + length (List.filter (fun x => negb (g x)) l))%nat = length l.
Proof.
  induction l as [|x l IH]; simpl; [reflexivity|].
  destruct (g x); simpl; lia.
Qed.

Lemma percentageAgrees_checked :
  FloatCheck.triangle
    (fun n p => FloatCheck.percentageAgrees (Z.of_nat n) (Z.of_nat p)) 39 = true.
Proof. vm_compute. reflexivity. Qed.

Lemma percentage_exact (passed total : Z) :
  0 < total < 40 -> 0 <= passed <= total ->
  ScoreSpec.percentageOf passed total = ScoreSpec.percentageExact passed total.
Proof.
  intros Ht Hp.
  pose proof (triangle_spec _ _ percentageAgrees_checked
                (Z.to_nat total) (Z.to_nat passed)) as H.
  cbv beta in H. rewrite !Z2Nat.id in H by lia.
  apply Z.eqb_eq. apply H; lia.
Qed.

(** Beyond that size the double result can fall below the exact one:
    23 passed of 40 is 57.49999999999999 in doubles and rounds to 57, while
    57.5 rounds to 58. *)
Example percentage_23_of_40 :
  ScoreSpec.percentageOf 23 40 = 57 /\ ScoreSpec.percentageExact 23 40 = 58.
Proof. split; vm_compute; reflexivity. Qed.

(** C4. The score of every pillar, at the pillar's position in the list:
    results whose [skipped] is truthy are dropped first; [passed] counts the
    remaining results with [pass = true] (the results that pass and are not
    skipped), [total] counts the remaining results (all results less the
    skipped ones), and [percentage] is [round(passed / total * 100)] when
    [total > 0] and 0 otherwise, computed in doubles (equal to the exact
    rounding of [100 * passed / total] for totals below 40). A pillar without
    an entry in the results map scores 0, 0 and 0. *)
Theorem calculatePillarScores_spec (pillars : list Pillar.t) (results : Results) :
  length (Scorer.calculatePillarScores pillars results) = length pillars /\
  forall (i : nat) (pillar : Pillar.t),
    pillars !! i = Some pillar ->
    exists score,
      Scorer.calculatePillarScores pillars results !! i = Some score /\
      let pillarResults := default [] (results !! Pillar.id pillar) in
      let isSkipped r := truthy (CriterionResult.skipped r) in
      let counted := List.filter (fun r => negb (isSkipped r)) pillarResults in
      PillarScore.pillarId score = Pillar.id pillar /\
      PillarScore.passed score
      = Z.of_nat (length (List.filter CriterionResult.pass counted)) /\
      PillarScore.passed score
      = Z.of_nat (length (List.filter
                            (fun r => CriterionResult.pass r && negb (isSkipped r))
                            pillarResults)) /\
      PillarScore.total score = Z.of_nat (length counted) /\
      PillarScore.total score
      = Z.of_nat (length pillarResults)
        - Z.of_nat (length (List.filter isSkipped pillarResults)) /\
      PillarScore.percentage score
      = (if 0 <? PillarScore.total score
         then ScoreSpec.percentageOf (PillarScore.passed score) (PillarScore.total score)
         else 0) /\
      (0 < PillarScore.total score < 40 ->
       PillarScore.percentage score
       = ScoreSpec.percentageExact (PillarScore.passed score) (PillarScore.total score)) /\
      (results !! Pillar.id pillar = None ->
       PillarScore.passed score = 0 /\ PillarScore.total score = 0 /\
       PillarScore.percentage score = 0).
Proof.
  split.
  - unfold Scorer.calculatePillarScores. apply List.length_map.
  - intros i pillar Hi.
    exists (Scorer.scorePillar results pillar). split.
    + unfold Scorer.calculatePillarScores. rewrite map_lookup, Hi. reflexivity.
    + cbv zeta. unfold Scorer.scorePillar, Scorer.pillarResultsOf.
      cbn [PillarScore.pillarId PillarScore.passed PillarScore.total PillarScore.percentage].
      set (rs := default [] (results !! Pillar.id pillar)).
      split; [reflexivity|]. split; [reflexivity|].
      split; [rewrite filter_filter_andb; reflexivity|].
      split; [reflexivity|].
      split.
      { pose proof (filter_length_split
                      (fun r => truthy (CriterionResult.skipped r)) rs). lia. }
      split; [reflexivity|].
      split.
      { intros Ht. assert (Hlt : (0 <? Z.of_nat
                                   (length (List.filter
                                              (fun r => negb (truthy (CriterionResult.skipped r)))
                                              rs))) = true) by (apply Z.ltb_lt; lia).
        rewrite Hlt. apply percentage_exact; [lia|].
        pose proof (List.filter_length_le CriterionResult.pass
                      (List.filter (fun r => negb (truthy (CriterionResult.skipped r))) rs)).
        lia. }
      intros Hnone. subst rs. rewrite Hnone. simpl. repeat split.
Qed.

(** ** Skipped results *)

Lemma countedFilter_addsSkipped (rs rs' : list CriterionResult.t) :
  ScoreSpec.addsSkipped rs rs' ->
  List.filter (fun r => negb (truthy (CriterionResult.skipped r))) rs'
  = List.filter (fun r => negb (truthy (CriterionResult.skipped r))) rs.
Proof.
  induction 1 as [|r rs rs' _ IH|s rs rs' Hs _ IH]; simpl.
  - reflexivity.
  - rewrite IH. reflexivity.
  - rewrite Hs. simpl. exact IH.
Qed.

Lemma scorePillar_addsSkipped (results : Results) (pid : string)
      (rs' : list CriterionResult.t) (pillar : Pillar.t) :
  ScoreSpec.addsSkipped (default [] (results !! pid)) rs' ->
  Scorer.scorePillar (<[ pid := rs' ]> results) pillar = Scorer.scorePillar results pillar.
Proof.
  intros Hadd. unfold Scorer.scorePillar, Scorer.pillarResultsOf.
  destruct (decide (pid = Pillar.id pillar)) as [->|Hne].
  - rewrite lookup_insert_eq. cbn [from_option id].
    rewrite (countedFilter_addsSkipped _ _ Hadd). reflexivity.
  - rewrite lookup_insert_ne by exact Hne. reflexivity.
Qed.

Lemma collectCriterion_skipped (prs : list CriterionResult.t) (c : Criterion.t)
      (r : CriterionResult.t) :
  Scorer.findResult prs c = Some r ->
  truthy (CriterionResult.skipped r) = true ->
  Scorer.collectCriterion prs c = [].
Proof.
  intros Hfind Hsk. unfold Scorer.collectCriterion. rewrite Hfind. simpl.
  rewrite Hsk. reflexivity.
Qed.

Lemma allCriteria_drop (ps1 ps2 : list Pillar.t) (p : Pillar.t)
      (cs1 cs2 : list Criterion.t) (c : Criterion.t) (results : Results) :
  Pillar.criteria p = cs1 ++ c :: cs2 ->
  Scorer.collectCriterion (Scorer.pillarResultsOf results p) c = [] ->
  Scorer.allCriteria (ps1 ++ p :: ps2) results
  = Scorer.allCriteria (ps1 ++ ScoreSpec.withCriteria p (cs1 ++ cs2) :: ps2) results.
Proof.
  intros Hcs Hc. unfold Scorer.allCriteria.
  rewrite !List.flat_map_app. f_equal. simpl. f_equal.
  rewrite Hcs. unfold Scorer.pillarResultsOf at 2. cbn [ScoreSpec.withCriteria Pillar.id Pillar.criteria].
  fold (Scorer.pillarResultsOf results p).
  rewrite !List.flat_map_app. simpl. rewrite Hc. reflexivity.
Qed.

(** C5. Skipped results are inert. (1) Putting any number of results whose
    [skipped] is truthy anywhere into a pillar's result list leaves every
    pillar score (passed, total, percentage) as it was. (2) A criterion whose
    matched result is skipped contributes no entry to the flattened list:
    every level bucket, and the level result, is what it would be without
    that criterion. *)
Theorem skipped_results_inert :
  (forall (pillars : list Pillar.t) (results : Results) (pid : string)
          (rs' : list CriterionResult.t),
      ScoreSpec.addsSkipped (default [] (results !! pid)) rs' ->
      Scorer.calculatePillarScores pillars (<[ pid := rs' ]> results)
      = Scorer.calculatePillarScores pillars results) /\
  (forall (ps1 ps2 : list Pillar.t) (p : Pillar.t) (cs1 cs2 : list Criterion.t)
          (c : Criterion.t) (results : Results) (r : CriterionResult.t),
      Pillar.criteria p = cs1 ++ c :: cs2 ->
      Scorer.findResult (Scorer.pillarResultsOf results p) c = Some r ->
      truthy (CriterionResult.skipped r) = true ->
      let without := ps1 ++ ScoreSpec.withCriteria p (cs1 ++ cs2) :: ps2 in
      (forall lvl, bucket (ps1 ++ p :: ps2) results lvl = bucket without results lvl) /\
      Scorer.calculateLevel (ps1 ++ p :: ps2) results
      = Scorer.calculateLevel without results).
Proof.
  split.
  - intros pillars results pid rs' Hadd. unfold Scorer.calculatePillarScores.
    apply List.map_ext. intros pillar. apply scorePillar_addsSkipped. exact Hadd.
  - intros ps1 ps2 p cs1 cs2 c results r Hcs Hfind Hsk without.
    assert (Hall : Scorer.allCriteria (ps1 ++ p :: ps2) results
                   = Scorer.allCriteria without results).
    { apply (allCriteria_drop ps1 ps2 p cs1 cs2 c results); [exact Hcs|].
      eapply collectCriterion_skipped; eassumption. }
    split.
    + intros lvl. unfold bucket. rewrite Hall. reflexivity.
    + unfold Scorer.calculateLevel. rewrite Hall. reflexivity.
Qed.

End ScorerFacts.

(** * Properties of the recommender *)

Section SortFacts.

Import RankSpec.

Context {A : Type}.

Lemma insert_perm (le : A -> A -> bool) (x : A) (s : list A) :
  insert le x s ≡ₚ x :: s.
Proof.
  induction s as [|y s IH]; simpl; [reflexivity|].
  destruct (le x y); [reflexivity|].
  rewrite IH. apply Permutation_swap.
Qed.

Lemma isort_perm (le : A -> A -> bool) (l : list A) : isort le l ≡ₚ l.
Proof.
  induction l as [|x l IH]; simpl; [reflexivity|].
  rewrite insert_perm, IH. reflexivity.
Qed.

Lemma isort_In (le : A -> A -> bool) (l : list A) (x : A) :
  In x (isort le l) <-> In x l.
Proof.
  split; apply Permutation_in; [|symmetry]; apply isort_perm.
Qed.

(** The monadic insertion follows the pure one as long as the comparator
    returns on the elements it is given. *)
Lemma insertBy_pure (cmp : A -> A -> option Z) (c : A -> A -> Z) (x : A) (s : list A) :
  (forall y, In y s -> cmp x y = Some (c x y)) ->
  Recommender.insertBy cmp x s = Some (insert (fun a b => c a b <=? 0) x s).
Proof.
  induction s as [|y s IH]; intros H; simpl; [reflexivity|].
  rewrite (H y) by (left; reflexivity). simpl.
  destruct (c x y <=? 0); [reflexivity|].
  rewrite IH by (intros z Hz; apply H; right; exact Hz). reflexivity.
Qed.

Lemma sortBy_pure (cmp : A -> A -> option Z) (c : A -> A -> Z) (l : list A) :
  (forall a b, In a l -> In b l -> cmp a b = Some (c a b)) ->
  Recommender.sortBy cmp l = Some (isort (fun a b => c a b <=? 0) l).
Proof.
  induction l as [|x l IH]; intros H; simpl; [reflexivity|].
  rewrite IH by (intros a b Ha Hb; apply H; right; assumption). simpl.
  apply insertBy_pure. intros y Hy. apply H; [left; reflexivity|].
  right. apply isort_In in Hy. exact Hy.
Qed.

(** A comparator that returns on every pair of elements makes the sort
    return a permutation. *)
Lemma sortBy_total (cmp : A -> A -> option Z) (l : list A) :
  (forall a b, In a l -> In b l -> is_Some (cmp a b)) ->
  exists sorted, Recommender.sortBy cmp l = Some sorted /\ sorted ≡ₚ l.
Proof.
  intros H.
  exists (isort (fun a b => default 0 (cmp a b) <=? 0) l). split.
  - apply (sortBy_pure cmp (fun a b => default 0 (cmp a b))).
    intros a b Ha Hb. destruct (H a b Ha Hb) as [z Hz]. rewrite Hz. reflexivity.
  - apply isort_perm.
Qed.

Section Order.

Variable le : A -> A -> bool.
Hypothesis le_total : forall x y, le x y = false -> le y x = true.
Hypothesis le_trans : forall x y z, le x y = true -> le y z = true -> le x z = true.





End Order.

End SortFacts.

Section SortMap.

Import RankSpec.

Context {A B : Type}.



End SortMap.

Section RecommenderFacts.

Import RankSpec.

(** ** The candidates *)

Lemma collectFailed_fails (p : Pillar.t) (results : Results) (cs : list Criterion.t) :
  List.flat_map (Recommender.collectFailed p (Scorer.pillarResultsOf results p)) cs
  = List.map itemOf (List.filter (fails results) (List.map (pair p) cs)).
Proof.
  induction cs as [|c cs IH]; simpl; [reflexivity|].
  rewrite IH. unfold Recommender.collectFailed, fails. simpl.
  destruct (Scorer.findResult _ c) as [r|]; [|reflexivity].
  destruct (negb (CriterionResult.pass r) && negb (truthy (CriterionResult.skipped r)));
    reflexivity.
Qed.

Lemma failedItems_candidates (pillars : list Pillar.t) (results : Results) :
  Recommender.failedItems pillars results = candidates pillars results.
Proof.
  unfold Recommender.failedItems, candidates, catalogue.
  induction pillars as [|p ps IH]; simpl; [reflexivity|].
  rewrite IH, collectFailed_fails, List.filter_app, List.map_app. reflexivity.
Qed.


(** The two tables have an entry for each of the same 42 criterion ids. *)
Example tables_sizes :
  size Recommender.EFFORT_MAP = 42%nat /\
  size Recommender.CRITERION_INFO = 42%nat /\
  dom Recommender.CRITERION_INFO = dom Recommender.EFFORT_MAP.
Proof. repeat split; vm_compute; reflexivity. Qed.

(** ** The comparator *)

Lemma find_is_Some {X} (p : X -> bool) (l : list X) (a : X) :
  In a l -> p a = true -> is_Some (List.find p l).
Proof.
  induction l as [|x l IH]; intros Hin Hp; simpl; [destruct Hin|].
  destruct (p x) eqn:E; [eexists; reflexivity|].
  destruct Hin as [->|Hin]; [congruence | apply IH; assumption].
Qed.


Lemma findFailed_test (cur : MaturityLevel) (a f : Recommender.failedItem) :
  String.eqb (Recommender.criterionId f)
             (Recommendation.criterionId (Recommender.toRecommendation cur a))
  && String.eqb (Recommender.pillarId f)
                (Recommendation.pillarId (Recommender.toRecommendation cur a)) = true
  <-> itemIds f = itemIds a.
Proof.
  unfold itemIds.
  cbn [Recommender.toRecommendation Recommendation.criterionId Recommendation.pillarId].
  rewrite Bool.andb_true_iff, !String.eqb_eq.
  split; [intros [-> ->]; reflexivity | intros H; injection H as -> ->; split; reflexivity].
Qed.

Lemma findFailed_is_Some (cur : MaturityLevel) (items : list Recommender.failedItem)
      (a : Recommender.failedItem) :
  In a items ->
  is_Some (Recommender.findFailed items (Recommender.toRecommendation cur a)).
Proof.
  intros Hin. unfold Recommender.findFailed.
  apply (find_is_Some _ _ a Hin). apply findFailed_test. reflexivity.
Qed.


Lemma compare_is_Some (cur : MaturityLevel) (items : list Recommender.failedItem)
      (next : Z) (ra rb : Recommendation.t) :
  In ra (List.map (Recommender.toRecommendation cur) items) ->
  In rb (List.map (Recommender.toRecommendation cur) items) ->
  is_Some (Recommender.compareRecommendations items next ra rb).
Proof.
  intros Ha Hb.
  apply List.in_map_iff in Ha as (a & <- & Ha).
  apply List.in_map_iff in Hb as (b & <- & Hb).
  unfold Recommender.compareRecommendations.
  destruct (findFailed_is_Some cur items a Ha) as [fa ->].
  destruct (findFailed_is_Some cur items b Hb) as [fb ->]. cbn [mbind option_bind].
  repeat match goal with |- context [if ?c then _ else _] => destruct c end;
    eexists; reflexivity.
Qed.



(** ** The rank order *)







Lemma NoDup_map_filter {X K} (key : X -> K) (g : X -> bool) (l : list X) :
  List.NoDup (List.map key l) -> List.NoDup (List.map key (List.filter g l)).
Proof.
  induction l as [|x l IH]; simpl; intros Hnd; [constructor|].
  inversion Hnd as [|k ks Hnotin Hnd']; subst.
  destruct (g x); simpl; [|apply IH; exact Hnd'].
  constructor; [|apply IH; exact Hnd'].
  intros Hin. apply Hnotin. apply List.in_map_iff in Hin as (y & Hy & Hin).
  apply List.filter_In in Hin as [Hin _]. rewrite <- Hy. apply List.in_map. exact Hin.
Qed.









End RecommenderFacts.

(** * Properties of the analysis engine *)

Section AnalyzerFacts.

Import Analyzer EngineSpec.

Lemma value_bind {A B} (m : Eff A) (k : A -> Eff B) :
  value (m ≫= k) = value (k (value m)).
Proof.
  destruct m as [log a]. unfold mbind, Eff_bind, bind, value. simpl.
  destruct (k a); reflexivity.
Qed.

Lemma trace_bind {A B} (m : Eff A) (k : A -> Eff B) :
  trace (m ≫= k) = trace m ++ trace (k (value m)).
Proof.
  destruct m as [log a]. unfold mbind, Eff_bind, bind, trace, value. simpl.
  destruct (k a); reflexivity.
Qed.

Lemma runCriterion_gated (this : AnalysisEngine) (criterion : Criterion.t) :
  Criterion.requiresLLM criterion && negb (aiEnabled this) = true ->
  runCriterion this criterion = ([], notRun criterion).
Proof. intros H. unfold runCriterion. rewrite H. reflexivity. Qed.

Lemma runCriterion_invoked (this : AnalysisEngine) (criterion : Criterion.t) :
  Criterion.requiresLLM criterion && negb (aiEnabled this) = false ->
  runCriterion this criterion
  = ([CheckInvoked criterion (repoPath this) (projectInfo this) (llmClient this)],
     match Criterion.check criterion (repoPath this) (projectInfo this) (llmClient this) with
     | Resolved result => result
     | Rejected error => checkFailed criterion error
     end).
Proof.
  intros H. unfold runCriterion. rewrite H.
  unfold invokeCheck, emit, ret, mbind, Eff_bind, bind. simpl.
  destruct (Criterion.check criterion _ _ _); reflexivity.
Qed.

Lemma value_runAll (this : AnalysisEngine) (criteria : list Criterion.t) :
  value (runAll this criteria)
  = List.map (fun criterion => value (runCriterion this criterion)) criteria.
Proof.
  induction criteria as [|c cs IH]; [reflexivity|].
  cbn [runAll List.map]. rewrite !value_bind, IH. reflexivity.
Qed.

Lemma value_runPillars_cons (this : AnalysisEngine) (pillar : Pillar.t)
      (rest : list Pillar.t) (acc : Results) :
  value (runPillars this (pillar :: rest) acc)
  = value (runPillars this rest
             (<[ Pillar.id pillar :=
                   List.map (fun criterion => value (runCriterion this criterion))
                            (Pillar.criteria pillar) ]> acc)).
Proof.
  cbn [runPillars]. rewrite !value_bind, value_runAll. reflexivity.
Qed.

Lemma value_runPillars_app (this : AnalysisEngine) (ps1 ps2 : list Pillar.t) (acc : Results) :
  value (runPillars this (ps1 ++ ps2) acc)
  = value (runPillars this ps2 (value (runPillars this ps1 acc))).
Proof.
  revert acc. induction ps1 as [|p ps1 IH]; intros acc; [reflexivity|].
  rewrite <- List.app_comm_cons, !value_runPillars_cons. apply IH.
Qed.

Lemma value_runPillars_other (this : AnalysisEngine) (ps : list Pillar.t)
      (acc : Results) (key : string) :
  (forall q, In q ps -> Pillar.id q <> key) ->
  value (runPillars this ps acc) !! key = acc !! key.
Proof.
  revert acc. induction ps as [|p ps IH]; intros acc H; [reflexivity|].
  rewrite value_runPillars_cons, IH by (intros q Hq; apply H; right; exact Hq).
  apply lookup_insert_ne. apply H. left. reflexivity.
Qed.

(** The results of a pillar are the results of its criteria, each run on
    its own, in criterion order. *)
Lemma run_lookup (this : AnalysisEngine) (ps1 ps2 : list Pillar.t) (p : Pillar.t) :
  pillars this = ps1 ++ p :: ps2 ->
  (forall q, In q ps2 -> Pillar.id q <> Pillar.id p) ->
  value (run this) !! Pillar.id p
  = Some (List.map (fun criterion => value (runCriterion this criterion))
                   (Pillar.criteria p)).
Proof.
  intros Hps Hlater. unfold run. rewrite Hps, value_runPillars_app, value_runPillars_cons.
  rewrite value_runPillars_other by exact Hlater.
  apply lookup_insert_eq.
Qed.

(** C6. When the engine invokes a criterion's check (the criterion is not
    one it leaves out for want of [aiEnabled]) and the check throws or
    rejects, [runCriterion] returns the result with [pass: false], no
    [skipped] field and the message ["Check failed: "] followed by the error's
    message (or the thrown value as a string); a check that resolves has its
    result used as it is. The run goes on: every pillar's entry of the
    returned map holds, in criterion order, what [runCriterion] gives for
    each of its criteria on its own, so no other result depends on the
    failure. *)
Theorem runCriterion_isolates_check_failure
        (this : AnalysisEngine) (criterion : Criterion.t) :
  Criterion.requiresLLM criterion && negb (aiEnabled this) = false ->
  let settled :=
    Criterion.check criterion (repoPath this) (projectInfo this) (llmClient this) in
  (forall error,
      settled = Rejected error ->
      let result := value (runCriterion this criterion) in
      result = checkFailed criterion error /\
      CriterionResult.pass result = false /\
      truthy (CriterionResult.skipped result) = false /\
      CriterionResult.message result
      = String.append "Check failed: "
          (match error with ThrownError message => message | ThrownValue s => s end)) /\
  (forall result, settled = Resolved result ->
                  value (runCriterion this criterion) = result) /\
  (forall ps1 p ps2,
      pillars this = ps1 ++ p :: ps2 ->
      (forall q, In q ps2 -> Pillar.id q <> Pillar.id p) ->
      value (run this) !! Pillar.id p
      = Some (List.map (fun c => value (runCriterion this c)) (Pillar.criteria p))).
Proof.
  intros Hrun settled. subst settled.
  rewrite (runCriterion_invoked this criterion Hrun). unfold value. cbn [snd].
  split; [|split].
  - intros error ->. destruct error; repeat split.
  - intros result ->. reflexivity.
  - intros ps1 p ps2 Hps Hlater. apply (run_lookup this ps1 ps2 p Hps Hlater).
Qed.

(** C7, as the code has it. For every criterion with [requiresLLM] set,
    when the engine's [aiEnabled] flag is false the engine does not invoke
    the check and returns exactly [{criterionId: criterion.id, pass: false,
    message: "Requires --ai flag", skipped: true}]. *)
Theorem runCriterion_skips_without_ai (this : AnalysisEngine) (criterion : Criterion.t) :
  Criterion.requiresLLM criterion = true ->
  aiEnabled this = false ->
  trace (runCriterion this criterion) = [] /\
  value (runCriterion this criterion)
  = {| CriterionResult.criterionId := Criterion.id criterion;
       CriterionResult.pass := false;
       CriterionResult.message := "Requires --ai flag";
       CriterionResult.details := None;
       CriterionResult.skipped := Some true |}.
Proof.
  intros Hllm Hai. rewrite runCriterion_gated by (rewrite Hllm, Hai; reflexivity).
  split; reflexivity.
Qed.

(** C10. Whether a criterion with [requiresLLM] is left out depends on the
    [aiEnabled] flag alone. Constructed with [aiEnabled: true], the engine
    invokes the check with whatever [llmClient] the options hold; with none,
    the check gets [undefined] and, if it then throws, the criterion comes
    out as a ["Check failed: ..."] failure that is not skipped. Constructed
    with [aiEnabled] false or absent, or with no options, the criterion is
    skipped and its check is not invoked, also when an [llmClient] was
    supplied. *)
Theorem evaluator_gate_follows_aiEnabled
        (pillars : list Pillar.t) (repoPath : string) (projectInfo : ProjectInfo)
        (options : option Options.t) (criterion : Criterion.t) :
  Criterion.requiresLLM criterion = true ->
  let engine := new pillars repoPath projectInfo options in
  (options ≫= Options.aiEnabled = Some true ->
   trace (runCriterion engine criterion)
   = [CheckInvoked criterion repoPath projectInfo (options ≫= Options.llmClient)] /\
   (options ≫= Options.llmClient = None ->
    trace (runCriterion engine criterion)
    = [CheckInvoked criterion repoPath projectInfo None] /\
    forall error,
      Criterion.check criterion repoPath projectInfo None = Rejected error ->
      value (runCriterion engine criterion) = checkFailed criterion error)) /\
  (options ≫= Options.aiEnabled <> Some true ->
   trace (runCriterion engine criterion) = [] /\
   value (runCriterion engine criterion) = notRun criterion /\
   truthy (CriterionResult.skipped (value (runCriterion engine criterion))) = true).
Proof.
  intros Hllm engine. split.
  - intros Hai.
    assert (Hrun : Criterion.requiresLLM criterion && negb (aiEnabled engine) = false).
    { subst engine. cbn [new aiEnabled]. rewrite Hai, Hllm. reflexivity. }
    rewrite (runCriterion_invoked engine criterion Hrun).
    subst engine. cbn [new Analyzer.repoPath Analyzer.projectInfo Analyzer.llmClient trace value fst snd].
    split; [reflexivity|].
    intros Hnone. rewrite Hnone. split; [reflexivity|].
    intros error ->. reflexivity.
  - intros Hai.
    assert (Hskip : Criterion.requiresLLM criterion && negb (aiEnabled engine) = true).
    { subst engine. cbn [new aiEnabled]. rewrite Hllm.
      destruct (options ≫= Options.aiEnabled) as [[|]|]; [congruence | reflexivity..]. }
    rewrite (runCriterion_gated engine criterion Hskip). repeat split.
Qed.

End AnalyzerFacts.

(** * Empty buckets, and the end-to-end scenarios *)

Section EmptyBuckets.

Import LevelSpec RankSpec.

Lemma buckets_empty (pillars : list Pillar.t) (results : Results) :
  (forall lvl, bucket pillars results lvl = []) ->
  Scorer.allCriteria pillars results = [].
Proof.
  unfold bucket. intros H.
  destruct (Scorer.allCriteria pillars results) as [|e all]; [reflexivity|].
  specialize (H (Scorer.level e)). simpl in H.
  rewrite (proj2 (level_eqb_eq _ _) eq_refl) in H. discriminate.
Qed.

Lemma flat_map_nil {X Y} (f : X -> list Y) (l : list X) :
  List.flat_map f l = [] -> forall x, In x l -> f x = [].
Proof.
  induction l as [|y l IH]; simpl; intros H x Hin; [destruct Hin|].
  apply List.app_eq_nil in H as [Hy Hl].
  destruct Hin as [<-|Hin]; [exact Hy | apply IH; assumption].
Qed.

Lemma flat_map_all_nil {X Y} (f : X -> list Y) (l : list X) :
  (forall x, In x l -> f x = []) -> List.flat_map f l = [].
Proof.
  induction l as [|y l IH]; simpl; intros H; [reflexivity|].
  rewrite (H y) by (left; reflexivity). simpl. apply IH.
  intros x Hx. apply H. right. exact Hx.
Qed.

Lemma collectFailed_of_collectCriterion (p : Pillar.t) (prs : list CriterionResult.t)
      (c : Criterion.t) :
  Scorer.collectCriterion prs c = [] -> Recommender.collectFailed p prs c = [].
Proof.
  unfold Scorer.collectCriterion, Recommender.collectFailed.
  destruct (Scorer.findResult prs c) as [r|]; simpl; [|discriminate].
  destruct (truthy (CriterionResult.skipped r)); [|discriminate].
  rewrite Bool.andb_false_r. reflexivity.
Qed.

Lemma failedItems_of_allCriteria (pillars : list Pillar.t) (results : Results) :
  Scorer.allCriteria pillars results = [] ->
  Recommender.failedItems pillars results = [].
Proof.
  unfold Scorer.allCriteria, Recommender.failedItems. intros H.
  apply flat_map_all_nil. intros p Hp.
  apply flat_map_all_nil. intros c Hc.
  apply collectFailed_of_collectCriterion.
  pose proof (flat_map_nil _ _ H p Hp) as Hcs. cbv beta in Hcs.
  apply (flat_map_nil _ _ Hcs c Hc).
Qed.

(** C2, as the code has it. When every level bucket is empty after the
    skipped results are left out, every level passes vacuously:
    [calculateLevel] returns level 5 with [nextLevel = null] and
    [current = needed = remaining = 0]. Neither the aggregator nor the ranker
    throws: the pillar scores are returned, one per pillar, and the ranker
    returns the empty list. *)
Theorem calculateLevel_all_buckets_empty (pillars : list Pillar.t) (results : Results) :
  (forall lvl, bucket pillars results lvl = []) ->
  Scorer.calculateLevel pillars results
  = Some {| LevelResult.level := L5;
            LevelResult.nextLevelProgress :=
              {| LevelResult.current := 0;
                 LevelResult.needed := 0;
                 LevelResult.remaining := 0;
                 LevelResult.nextLevel := None |} |} /\
  length (Scorer.calculatePillarScores pillars results) = length pillars /\
  forall scores lr,
    Recommender.generateRecommendations pillars results scores lr = Some [].
Proof.
  intros Hempty. split; [|split].
  - rewrite calculateLevel_closed. cbv zeta.
    assert (Hgate : gate (fun l => passes (bucket pillars results l)) Scorer.levels L1 = L5).
    { unfold Scorer.levels. cbn [gate]. rewrite !Hempty. reflexivity. }
    rewrite Hgate. reflexivity.
  - unfold Scorer.calculatePillarScores. apply List.length_map.
  - intros scores lr. unfold Recommender.generateRecommendations.
    rewrite (failedItems_of_allCriteria pillars results (buckets_empty _ _ Hempty)).
    reflexivity.
Qed.

(** ** An empty result set *)

Lemma allCriteria_no_results (pillars : list Pillar.t) :
  Scorer.allCriteria pillars ∅
  = List.map (fun pc => {| Scorer.level := Criterion.level (snd pc); Scorer.pass := false |})
             (catalogue pillars).
Proof.
  unfold Scorer.allCriteria, catalogue.
  induction pillars as [|p ps IH]; simpl; [reflexivity|].
  rewrite IH, List.map_app. f_equal.
  unfold Scorer.pillarResultsOf. rewrite lookup_empty. cbn [from_option].
  rewrite List.map_map. clear IH.
  induction (Pillar.criteria p) as [|c cs IHc]; simpl; [reflexivity|].
  rewrite IHc. reflexivity.
Qed.

Lemma passedCount_none (b : list Scorer.entry) :
  (forall e, In e b -> Scorer.pass e = false) -> passedCount b = 0.
Proof.
  intros H. unfold passedCount.
  induction b as [|e b IH]; simpl; [reflexivity|].
  rewrite (H e) by (left; reflexivity). apply IH.
  intros e' He'. apply H. right. exact He'.
Qed.

Lemma passes_none_passed (b : list Scorer.entry) :
  b <> [] -> passedCount b = 0 -> passes b = false.
Proof.
  intros Hne Hp. destruct b as [|e b]; [congruence|].
  unfold passes, passRate. rewrite Hp.
  destruct (Number.of_Z (bucketSize (e :: b))); reflexivity.
Qed.

Lemma bucket_no_results_pass (pillars : list Pillar.t) (lvl : MaturityLevel) (e : Scorer.entry) :
  In e (bucket pillars ∅ lvl) -> Scorer.pass e = false.
Proof.
  unfold bucket. rewrite allCriteria_no_results. intros He.
  apply List.filter_In in He as [He _].
  apply List.in_map_iff in He as (pc & <- & _). reflexivity.
Qed.

Lemma bucket_no_results_In (pillars : list Pillar.t) (p : Pillar.t) (c : Criterion.t) :
  In p pillars -> In c (Pillar.criteria p) ->
  bucket pillars ∅ (Criterion.level c) <> [].
Proof.
  intros Hp Hc Hnil.
  assert (Hin : In {| Scorer.level := Criterion.level c; Scorer.pass := false |}
                   (bucket pillars ∅ (Criterion.level c))).
  { unfold bucket. rewrite allCriteria_no_results. apply List.filter_In. split.
    - apply List.in_map_iff. exists (p, c). split; [reflexivity|].
      unfold catalogue. apply List.in_flat_map. exists p. split; [exact Hp|].
      apply List.in_map. exact Hc.
    - apply level_eqb_eq. reflexivity. }
  rewrite Hnil in Hin. destruct Hin.
Qed.

(** Without any result, every criterion counts as failed: a catalogue with
    a criterion at level 1 or 2 is at level 1, with nothing passed at
    level 2; every pillar scores 0, 0 and 0 and there is nothing to
    recommend. *)
Lemma empty_results_level_one (pillars : list Pillar.t) :
  (forall p, In p pillars ->
             Scorer.scorePillar ∅ p
             = {| PillarScore.pillarId := Pillar.id p; PillarScore.passed := 0;
                  PillarScore.total := 0; PillarScore.percentage := 0 |}) /\
  (forall scores lr, Recommender.generateRecommendations pillars ∅ scores lr = Some []) /\
  ((exists p c, In p pillars /\ In c (Pillar.criteria p) /\ level_num (Criterion.level c) <= 2) ->
   exists lr,
     Scorer.calculateLevel pillars ∅ = Some lr /\
     LevelResult.level lr = L1 /\
     LevelResult.nextLevel (LevelResult.nextLevelProgress lr) = Some L2 /\
     LevelResult.current (LevelResult.nextLevelProgress lr) = 0).
Proof.
  split; [|split].
  - intros p _. unfold Scorer.scorePillar, Scorer.pillarResultsOf.
    rewrite lookup_empty. reflexivity.
  - intros scores lr. unfold Recommender.generateRecommendations.
    assert (Hnone : Recommender.failedItems pillars ∅ = []).
    { unfold Recommender.failedItems. apply flat_map_all_nil. intros p _.
      apply flat_map_all_nil. intros c _.
      unfold Recommender.collectFailed, Scorer.pillarResultsOf.
      rewrite lookup_empty. reflexivity. }
    rewrite Hnone. reflexivity.
  - intros (p & c & Hp & Hc & Hlvl).
    rewrite calculateLevel_closed. eexists. split; [reflexivity|].
    cbn [LevelResult.level LevelResult.nextLevelProgress].
    set (ok := fun l => passes (bucket pillars ∅ l)).
    assert (Hfail : forall l, bucket pillars ∅ l <> [] -> ok l = false).
    { intros l Hl. apply passes_none_passed; [exact Hl|].
      apply passedCount_none. intros e. apply bucket_no_results_pass. }
    pose proof (bucket_no_results_In pillars p c Hp Hc) as Hne.
    assert (Hgate : gate ok Scorer.levels L1 = L1).
    { unfold Scorer.levels. cbn [gate].
      destruct (ok L1) eqn:E1; [|reflexivity].
      assert (E2 : ok L2 = false).
      { destruct (Criterion.level c) eqn:El; simpl in Hlvl; try lia.
        - rewrite Hfail in E1 by exact Hne. discriminate.
        - apply Hfail. exact Hne. }
      rewrite E2. reflexivity. }
    rewrite Hgate. cbn. split; [reflexivity|]. split; [reflexivity|].
    apply passedCount_none. intros e. apply bucket_no_results_pass.
Qed.

End EmptyBuckets.

(** ** Instances *)

Section Instances.

Import LevelSpec RankSpec EngineSpec Scenario.

(** Scenario B and the empty input have every bucket empty; the level they
    get is 5, not 1. *)
Lemma calculateLevel_all_skipped_is_not_level_1 :
  (forall lvl, bucket pillarsB resultsB lvl = []) /\
  (forall lvl, bucket [] ∅ lvl = []) /\
  ~ (exists lr,
        Scorer.calculateLevel pillarsB resultsB = Some lr /\
        LevelResult.level lr = L1 /\
        LevelResult.nextLevel (LevelResult.nextLevelProgress lr) = Some L2) /\
  ~ (exists lr,
        Scorer.calculateLevel [] ∅ = Some lr /\
        LevelResult.level lr = L1 /\
        LevelResult.nextLevel (LevelResult.nextLevelProgress lr) = Some L2).
Proof.
  split; [intros []; vm_compute; reflexivity|].
  split; [intros []; vm_compute; reflexivity|].
  split; intros (lr & Hlr & Hlevel & _); vm_compute in Hlr;
    injection Hlr as <-; discriminate Hlevel.
Qed.

Lemma calculateLevel_all_buckets_empty_witness :
  (forall lvl, bucket pillarsB resultsB lvl = []) /\
  Scorer.calculateLevel pillarsB resultsB
  = Some {| LevelResult.level := L5;
            LevelResult.nextLevelProgress :=
              {| LevelResult.current := 0;
                 LevelResult.needed := 0;
                 LevelResult.remaining := 0;
                 LevelResult.nextLevel := None |} |} /\
  length (Scorer.calculatePillarScores pillarsB resultsB) = length pillarsB /\
  forall scores lr,
    Recommender.generateRecommendations pillarsB resultsB scores lr = Some [].
Proof.
  assert (H : forall lvl, bucket pillarsB resultsB lvl = [])
    by (intros []; vm_compute; reflexivity).
  split; [exact H | apply (calculateLevel_all_buckets_empty pillarsB resultsB H)].
Defined.

(** Scenario C end to end: level 2 passes at exactly 80%. *)
Example scenarioC_level_2_passes :
  passes (bucket pillarsC resultsC L2) = true /\
  bucketSize (bucket pillarsC resultsC L2) = 10 /\
  passedCount (bucket pillarsC resultsC L2) = 8 /\
  (LevelResult.level <$> Scorer.calculateLevel pillarsC resultsC) = Some L5.
Proof. repeat split; vm_compute; reflexivity. Qed.

(** Nine of ten at level 1 with nothing passing at level 2 stays at level 1
    whatever holds above. *)
Example gate_holds_below_failed_level :
  let pillars :=
    [pillar "style" (List.map (fun id => passing "style" id L1) ["a"; "b"; "c"; "d"]
                     ++ [failing "style" "e" L2; passing "style" "f" L3])] in
  (LevelResult.level <$> Scorer.calculateLevel pillars (resultsOf pillars)) = Some L1.
Proof. vm_compute. reflexivity. Qed.

(** A skipped result put in front of a criterion's other result becomes
    the result the criterion is matched with: the pillar score is as before,
    the criterion leaves its bucket. *)
Example skipped_result_in_front :
  let pillars := [pillar "style" [failing "style" "linter" L1]] in
  let before : Results := {[ "style" := [result "linter" false None] ]} in
  let after : Results :=
    {[ "style" := [result "linter" false (Some true); result "linter" false None] ]} in
  Scorer.calculatePillarScores pillars after = Scorer.calculatePillarScores pillars before /\
  bucket pillars before L1 = [ {| Scorer.level := L1; Scorer.pass := false |} ] /\
  bucket pillars after L1 = [].
Proof. repeat split; vm_compute; reflexivity. Qed.

(** The ranking input: the order of the returned recommendations. *)
Example ranking_order :
  (List.map (fun r => (Recommendation.criterionId r, Recommendation.impact r,
                       Recommendation.effort r))
   <$> Recommender.generateRecommendations pillarsR resultsR [] levelOne)
  = Some [("editorconfig", Impact.high, Effort.low);
          ("custom-check", Impact.high, Effort.medium);
          ("linter", Impact.high, Effort.medium);
          ("formatter", Impact.high, Effort.medium);
          ("coverage", Impact.high, Effort.high);
          ("readme", Impact.medium, Effort.low);
          ("architecture-docs", Impact.medium, Effort.high);
          ("naming-conventions", Impact.low, Effort.medium)].
Proof. vm_compute. reflexivity. Qed.



(** The results of scenario A are what the engine collects from the
    checks of its pillars. *)
Example scenarioA_run :
  Analyzer.value (Analyzer.run (engineWith pillarsA None None)) = resultsA.
Proof. vm_compute. reflexivity. Qed.

(** Scenario D end to end: the crashed check is a failure that is not
    skipped; the other results of the run are the checks' own. *)
Example scenarioD_run :
  let results := Analyzer.value (Analyzer.run (engineWith pillarsD None None)) in
  results !! "style"
  = Some [result "linter" true None;
          {| CriterionResult.criterionId := "formatter";
             CriterionResult.pass := false;
             CriterionResult.message := "Check failed: ENOENT: no such file";
             CriterionResult.details := None;
             CriterionResult.skipped := None |}] /\
  results !! "testing" = Some [result "test-files" false None].
Proof. split; vm_compute; reflexivity. Qed.

Lemma runCriterion_isolates_check_failure_witness :
  let this := engineWith pillarsD None None in
  let criterion := crashing "style" "formatter" L1 in
  Criterion.requiresLLM criterion && negb (Analyzer.aiEnabled this) = false /\
  Analyzer.value (Analyzer.runCriterion this criterion)
  = checkFailed criterion (ThrownError "ENOENT: no such file").
Proof.
  split; [reflexivity|].
  destruct (runCriterion_isolates_check_failure
              (engineWith pillarsD None None) (crashing "style" "formatter" L1) eq_refl)
    as (Hrejected & _).
  destruct (Hrejected (ThrownError "ENOENT: no such file") eq_refl) as (Hresult & _).
  exact Hresult.
Defined.

Lemma runCriterion_skips_without_ai_witness :
  let this := engineWith [] (Some false) (Some approvingClient) in
  Criterion.requiresLLM llmCriterion = true /\
  Analyzer.aiEnabled this = false /\
  Analyzer.trace (Analyzer.runCriterion this llmCriterion) = [] /\
  Analyzer.value (Analyzer.runCriterion this llmCriterion)
  = {| CriterionResult.criterionId := "readme-quality";
       CriterionResult.pass := false;
       CriterionResult.message := "Requires --ai flag";
       CriterionResult.details := None;
       CriterionResult.skipped := Some true |}.
Proof.
  split; [reflexivity|]. split; [reflexivity|].
  apply (runCriterion_skips_without_ai
           (engineWith [] (Some false) (Some approvingClient)) llmCriterion
           eq_refl eq_refl).
Defined.

(** With no evaluator supplied, a criterion that requires one is not given
    the result with the message ["Requires external evaluator"]: with
    [aiEnabled] unset the message is another, and with [aiEnabled: true] the
    check is invoked. *)
Lemma runCriterion_no_evaluator_counterexample :
  let skippedAs (r : CriterionResult.t) :=
    CriterionResult.pass r = false /\
    CriterionResult.message r = "Requires external evaluator" /\
    CriterionResult.skipped r = Some true in
  Criterion.requiresLLM llmCriterion = true /\
  Analyzer.llmClient (engineWith [] None None) = None /\
  ~ skippedAs (Analyzer.value (Analyzer.runCriterion (engineWith [] None None) llmCriterion)) /\
  Analyzer.llmClient (engineWith [] (Some true) None) = None /\
  ~ (Analyzer.trace (Analyzer.runCriterion (engineWith [] (Some true) None) llmCriterion) = [] /\
     skippedAs (Analyzer.value
                  (Analyzer.runCriterion (engineWith [] (Some true) None) llmCriterion))).
Proof.
  intros skippedAs. subst skippedAs. cbv beta.
  split; [reflexivity|]. split; [reflexivity|].
  split; [intros (_ & Hmsg & _); vm_compute in Hmsg; discriminate Hmsg|].
  split; [reflexivity|].
  intros (Htrace & _). vm_compute in Htrace. discriminate Htrace.
Qed.

Lemma evaluator_gate_follows_aiEnabled_witness :
  Criterion.requiresLLM llmCriterion = true /\
  (let engine := Analyzer.new [] "/repo" info (Some (optionsWith (Some true) None)) in
   Analyzer.trace (Analyzer.runCriterion engine llmCriterion)
   = [Analyzer.CheckInvoked llmCriterion "/repo" info None] /\
   CriterionResult.message (Analyzer.value (Analyzer.runCriterion engine llmCriterion))
   = "Check failed: Cannot read properties of undefined (reading 'evaluate')") /\
  (let engine :=
     Analyzer.new [] "/repo" info (Some (optionsWith (Some false) (Some approvingClient))) in
   Analyzer.trace (Analyzer.runCriterion engine llmCriterion) = [] /\
   Analyzer.value (Analyzer.runCriterion engine llmCriterion) = notRun llmCriterion).
Proof.
  split; [reflexivity|]. split.
  - destruct (evaluator_gate_follows_aiEnabled
                [] "/repo" info (Some (optionsWith (Some true) None)) llmCriterion eq_refl)
      as [Hon _].
    destruct (Hon eq_refl) as (_ & Hnone).
    destruct (Hnone eq_refl) as (Htrace & Hfail).
    split; [exact Htrace|].
    rewrite (Hfail _ eq_refl). reflexivity.
  - destruct (evaluator_gate_follows_aiEnabled
                [] "/repo" info (Some (optionsWith (Some false) (Some approvingClient)))
                llmCriterion eq_refl) as [_ Hoff].
    destruct Hoff as (Htrace & Hvalue & _); [discriminate|].
    split; [exact Htrace | exact Hvalue].
Defined.

End Instances.

(** * Further properties of the analysis engine *)

Section RunFacts.

Import Analyzer EngineSpec RunSpec.

Lemma find_app {X} (f : X -> bool) (l1 l2 : list X) :
  List.find f (l1 ++ l2)
  = match List.find f l1 with Some x => Some x | None => List.find f l2 end.
Proof.
  induction l1 as [|x l1 IH]; simpl; [reflexivity|].
  destruct (f x); [reflexivity | exact IH].
Qed.

Lemma value_runPillars_lookup (this : AnalysisEngine) (ps : list Pillar.t)
      (acc : Results) (key : string) :
  value (runPillars this ps acc) !! key
  = match lastWithId key ps with
    | Some p => Some (resultsOf this p)
    | None => acc !! key
    end.
Proof.
  unfold lastWithId. revert acc. induction ps as [|p ps IH]; intros acc; [reflexivity|].
  rewrite value_runPillars_cons, IH. cbn [List.rev]. rewrite find_app.
  destruct (List.find _ (List.rev ps)) as [q|]; [reflexivity|].
  cbn [List.find]. destruct (String.eqb_spec (Pillar.id p) key) as [<-|Hne].
  - rewrite lookup_insert_eq. reflexivity.
  - rewrite lookup_insert_ne by exact Hne. reflexivity.
Qed.

(** X1. The map a run returns has an entry exactly for the ids of the
    pillars it was given: under a pillar id it holds the results of the last
    pillar with that id (an earlier pillar with the same id is overwritten),
    one result per criterion in criterion order; under any other key it holds
    nothing. *)
Theorem run_lookup_last (this : AnalysisEngine) (key : string) :
  value (run this) !! key = resultsOf this <$> lastWithId key (pillars this) /\
  (is_Some (value (run this) !! key) <->
   exists p, In p (pillars this) /\ Pillar.id p = key) /\
  (forall rs, value (run this) !! key = Some rs ->
              exists p, In p (pillars this) /\ Pillar.id p = key /\
                        length rs = length (Pillar.criteria p) /\
                        forall i c, Pillar.criteria p !! i = Some c ->
                                    rs !! i = Some (value (runCriterion this c))).
Proof.
  assert (Hlookup : value (run this) !! key
                    = resultsOf this <$> lastWithId key (pillars this)).
  { unfold run. rewrite value_runPillars_lookup, lookup_empty.
    destruct (lastWithId key (pillars this)); reflexivity. }
  assert (Hfound : forall p, lastWithId key (pillars this) = Some p ->
                             In p (pillars this) /\ Pillar.id p = key).
  { unfold lastWithId. intros p Hp. apply List.find_some in Hp as [Hin Heq].
    split; [apply List.in_rev; exact Hin | apply String.eqb_eq; exact Heq]. }
  split; [exact Hlookup|]. split.
  - rewrite Hlookup. split.
    + intros [rs Hrs]. destruct (lastWithId key (pillars this)) as [p|] eqn:E;
        [|discriminate]. exists p. apply Hfound. reflexivity.
    + intros (p & Hin & Hid). unfold lastWithId.
      destruct (find_is_Some (fun q => String.eqb (Pillar.id q) key)
                             (List.rev (pillars this)) p) as [q Hq].
      * apply List.in_rev. rewrite List.rev_involutive. exact Hin.
      * apply String.eqb_eq. exact Hid.
      * rewrite Hq. eexists. reflexivity.
  - intros rs Hrs. rewrite Hlookup in Hrs.
    destruct (lastWithId key (pillars this)) as [p|] eqn:E; [|discriminate].
    injection Hrs as <-. destruct (Hfound p eq_refl) as [Hin Hid].
    exists p. split; [exact Hin|]. split; [exact Hid|]. split.
    + unfold resultsOf. apply List.length_map.
    + intros i c Hc. unfold resultsOf. rewrite map_lookup, Hc. reflexivity.
Qed.

Lemma trace_runCriterion (this : AnalysisEngine) (c : Criterion.t) :
  trace (runCriterion this c) = if gated this c then [] else [invocation this c].
Proof.
  unfold gated. destruct (Criterion.requiresLLM c && negb (aiEnabled this)) eqn:E.
  - rewrite runCriterion_gated by exact E. reflexivity.
  - rewrite runCriterion_invoked by exact E. reflexivity.
Qed.

Lemma trace_runAll (this : AnalysisEngine) (cs : list Criterion.t) :
  trace (runAll this cs)
  = List.map (invocation this) (List.filter (fun c => negb (gated this c)) cs).
Proof.
  induction cs as [|c cs IH]; [reflexivity|].
  cbn [runAll List.filter]. rewrite !trace_bind, IH, trace_runCriterion.
  change (trace (ret ?x)) with (@nil Event). rewrite List.app_nil_r.
  destruct (gated this c); reflexivity.
Qed.

Lemma trace_notify {F} (callback : option F) (e : Event) :
  trace (notify callback e) = match callback with Some _ => [e] | None => [] end.
Proof. destruct callback; reflexivity. Qed.

Lemma trace_runPillars (this : AnalysisEngine) (ps : list Pillar.t) (acc : Results) :
  trace (runPillars this ps acc) = List.flat_map (pillarBlock this) ps.
Proof.
  revert acc. induction ps as [|p ps IH]; intros acc; [reflexivity|].
  cbn [runPillars List.flat_map]. rewrite !trace_bind, IH.
  rewrite !trace_notify, trace_runAll, value_runAll.
  unfold pillarBlock, resultsOf. rewrite <- !List.app_assoc. reflexivity.
Qed.

Lemma invoked_app (l1 l2 : list Event) : invoked (l1 ++ l2) = invoked l1 ++ invoked l2.
Proof. apply List.filter_app. Qed.

Lemma invoked_invocations (this : AnalysisEngine) (cs : list Criterion.t) :
  invoked (List.map (invocation this) cs) = List.map (invocation this) cs.
Proof. induction cs as [|c cs IH]; simpl; [reflexivity | rewrite IH; reflexivity]. Qed.

Lemma invoked_pillarBlock (this : AnalysisEngine) (p : Pillar.t) :
  invoked (pillarBlock this p)
  = List.map (invocation this)
             (List.filter (fun c => negb (gated this c)) (Pillar.criteria p)).
Proof.
  unfold pillarBlock. rewrite !invoked_app, invoked_invocations.
  destruct (onPillarStart this), (onPillarComplete this); simpl;
    rewrite ?List.app_nil_r; reflexivity.
Qed.

(** X2. No retries and no check of a criterion left out: the checks a run
    invokes are, in catalogue order and once for each occurrence, those of
    the criteria that are not left out for want of [aiEnabled], every one
    with the engine's own repository path, project information and
    evaluator. *)
Theorem run_invokes_each_check_once (this : AnalysisEngine) :
  invoked (trace (run this))
  = List.map (invocation this)
             (List.filter (fun c => negb (gated this c))
                          (List.flat_map Pillar.criteria (pillars this))) /\
  (forall c path info llm,
      In (CheckInvoked c path info llm) (trace (run this)) ->
      gated this c = false /\
      path = repoPath this /\ info = projectInfo this /\ llm = llmClient this /\
      exists p, In p (pillars this) /\ In c (Pillar.criteria p)).
Proof.
  assert (Hinv : invoked (trace (run this))
                 = List.map (invocation this)
                     (List.filter (fun c => negb (gated this c))
                                  (List.flat_map Pillar.criteria (pillars this)))).
  { unfold run. rewrite trace_runPillars.
    induction (pillars this) as [|p ps IH]; [reflexivity|].
    cbn [List.flat_map]. rewrite invoked_app, IH, invoked_pillarBlock.
    rewrite List.filter_app, List.map_app. reflexivity. }
  split; [exact Hinv|].
  intros c path info llm Hin.
  assert (Hin' : In (CheckInvoked c path info llm) (invoked (trace (run this)))).
  { unfold invoked. apply List.filter_In. split; [exact Hin | reflexivity]. }
  rewrite Hinv in Hin'. apply List.in_map_iff in Hin' as (c' & Heq & Hc').
  unfold invocation in Heq. injection Heq as -> <- <- <-.
  apply List.filter_In in Hc' as [Hcat Hgate].
  apply List.in_flat_map in Hcat as (p & Hp & Hc).
  split; [apply Bool.negb_true_iff; exact Hgate|].
  repeat split. exists p. split; assumption.
Qed.

(** X3. Progress notifications never interleave: the trace of a run is,
    pillar after pillar in input order, the start notification (when the
    callback is supplied), then the checks of that pillar, then the
    completion notification (when supplied), which carries one result per
    criterion of the pillar, in criterion order; for a pillar whose id no
    later pillar repeats these are the results the returned map holds for
    it. *)
Theorem run_trace_by_pillar (this : AnalysisEngine) :
  trace (run this) = List.flat_map (pillarBlock this) (pillars this) /\
  (forall p rs,
      In (PillarCompleted p rs) (trace (run this)) ->
      In p (pillars this) /\ rs = resultsOf this p /\
      length rs = length (Pillar.criteria p)) /\
  (forall ps1 p ps2,
      pillars this = ps1 ++ p :: ps2 ->
      (forall q, In q ps2 -> Pillar.id q <> Pillar.id p) ->
      value (run this) !! Pillar.id p = Some (resultsOf this p)).
Proof.
  assert (Htrace : trace (run this) = List.flat_map (pillarBlock this) (pillars this))
    by (unfold run; apply trace_runPillars).
  split; [exact Htrace|]. split.
  - intros p rs Hin. rewrite Htrace in Hin.
    apply List.in_flat_map in Hin as (q & Hq & Hin).
    unfold pillarBlock in Hin.
    apply List.in_app_or in Hin as [Hin|Hin];
      [destruct (onPillarStart this);
       [destruct Hin as [Hin|[]]; discriminate Hin | destruct Hin]|].
    apply List.in_app_or in Hin as [Hin|Hin].
    + apply List.in_map_iff in Hin as (c & Hc & _). discriminate Hc.
    + destruct (onPillarComplete this); [|destruct Hin].
      destruct Hin as [Hin|[]]. injection Hin as <- <-.
      split; [exact Hq|]. split; [reflexivity|].
      unfold resultsOf. apply List.length_map.
  - intros ps1 p ps2 Hps Hlater. apply (run_lookup this ps1 ps2 p Hps Hlater).
Qed.

End RunFacts.

Section RunIntoScoring.

Import Analyzer EngineSpec RunSpec RankSpec.

Lemma find_skip {X} (f : X -> bool) (l1 l2 : list X) :
  (forall x, In x l1 -> f x = false) -> List.find f (l1 ++ l2) = List.find f l2.
Proof.
  intros H. induction l1 as [|x l1 IH]; simpl; [reflexivity|].
  rewrite (H x) by (left; reflexivity). apply IH. intros y Hy. apply H. right. exact Hy.
Qed.

(** The result the scorer and the ranker match a criterion with is the one
    the engine produced for it, when no earlier criterion of the pillar
    produced a result under its id. *)
Lemma findResult_run (this : AnalysisEngine) (ps1 ps2 : list Pillar.t) (p : Pillar.t)
      (cs1 cs2 : list Criterion.t) (c : Criterion.t) :
  pillars this = ps1 ++ p :: ps2 ->
  (forall q, In q ps2 -> Pillar.id q <> Pillar.id p) ->
  Pillar.criteria p = cs1 ++ c :: cs2 ->
  (forall c', In c' cs1 ->
              CriterionResult.criterionId (value (runCriterion this c')) <> Criterion.id c) ->
  CriterionResult.criterionId (value (runCriterion this c)) = Criterion.id c ->
  Scorer.findResult (Scorer.pillarResultsOf (value (run this)) p) c
  = Some (value (runCriterion this c)).
Proof.
  intros Hps Hlater Hcs Hearlier Hown.
  unfold Scorer.pillarResultsOf. rewrite (run_lookup this ps1 ps2 p Hps Hlater).
  cbn [from_option id]. unfold Scorer.findResult. rewrite Hcs, List.map_app.
  rewrite find_skip.
  - cbn [List.map List.find]. rewrite Hown, String.eqb_refl. reflexivity.
  - intros r Hr. apply List.in_map_iff in Hr as (c' & <- & Hc').
    apply String.eqb_neq. apply Hearlier. exact Hc'.
Qed.

(** X4. From the engine into the scores. For a criterion of a pillar whose
    id no later pillar repeats, when no earlier criterion of the pillar
    produced a result under this criterion's id: a criterion the engine
    leaves out for want of [aiEnabled] adds nothing to any level bucket and
    is no candidate for a recommendation; a criterion whose check threw or
    rejected adds a failing entry at its level and is a candidate. *)
Theorem engine_results_in_scoring
        (this : AnalysisEngine) (ps1 ps2 : list Pillar.t) (p : Pillar.t)
        (cs1 cs2 : list Criterion.t) (c : Criterion.t) :
  pillars this = ps1 ++ p :: ps2 ->
  (forall q, In q ps2 -> Pillar.id q <> Pillar.id p) ->
  Pillar.criteria p = cs1 ++ c :: cs2 ->
  (forall c', In c' cs1 ->
              CriterionResult.criterionId (value (runCriterion this c')) <> Criterion.id c) ->
  let results := value (run this) in
  (gated this c = true ->
   Scorer.collectCriterion (Scorer.pillarResultsOf results p) c = [] /\
   fails results (p, c) = false) /\
  (gated this c = false ->
   forall error,
     Criterion.check c (repoPath this) (projectInfo this) (llmClient this) = Rejected error ->
     Scorer.collectCriterion (Scorer.pillarResultsOf results p) c
     = [ {| Scorer.level := Criterion.level c; Scorer.pass := false |} ] /\
     fails results (p, c) = true).
Proof.
  intros Hps Hlater Hcs Hearlier results. subst results. split.
  - intros Hg.
    assert (Hrun : runCriterion this c = ([], notRun c))
      by (apply runCriterion_gated; exact Hg).
    assert (Hfind := findResult_run this ps1 ps2 p cs1 cs2 c Hps Hlater Hcs Hearlier).
    rewrite Hrun in Hfind. specialize (Hfind eq_refl).
    unfold Scorer.collectCriterion, fails. cbn [fst snd]. rewrite Hfind.
    split; reflexivity.
  - intros Hg error Hcheck.
    assert (Hrun : value (runCriterion this c) = checkFailed c error).
    { rewrite (runCriterion_invoked this c Hg), Hcheck. reflexivity. }
    assert (Hfind := findResult_run this ps1 ps2 p cs1 cs2 c Hps Hlater Hcs Hearlier).
    rewrite Hrun in Hfind. specialize (Hfind eq_refl).
    unfold Scorer.collectCriterion, fails. cbn [fst snd]. rewrite Hfind.
    split; reflexivity.
Qed.

End RunIntoScoring.

(** * Further properties of the scorer *)

Section LevelFacts.

Import LevelSpec Improve.

Lemma bucket_length_le (pillars : list Pillar.t) (results : Results) (lvl : MaturityLevel) :
  (length (bucket pillars results lvl) <= length (Scorer.allCriteria pillars results))%nat.
Proof. unfold bucket. apply List.filter_length_le. Qed.

Lemma gate_ext (ok ok' : MaturityLevel -> bool) (lvls : list MaturityLevel)
      (floor : MaturityLevel) :
  (forall l, ok l = ok' l) -> gate ok lvls floor = gate ok' lvls floor.
Proof.
  intros H. revert floor. induction lvls as [|l lvls IH]; intros floor; simpl; [reflexivity|].
  rewrite (H l). destruct (ok' l); [apply IH | reflexivity].
Qed.

Lemma gate_next_fails (ok : MaturityLevel -> bool) :
  ok L1 = true ->
  level_num (gate ok Scorer.levels L1) < 5 ->
  ok (level_succ (gate ok Scorer.levels L1)) = false.
Proof.
  unfold Scorer.levels. cbn [gate]. intros H1. rewrite H1.
  destruct (ok L2) eqn:E2; [|intros _; exact E2].
  destruct (ok L3) eqn:E3; [|intros _; exact E3].
  destruct (ok L4) eqn:E4; [|intros _; exact E4].
  destruct (ok L5) eqn:E5; [|intros _; exact E5].
  simpl. lia.
Qed.

Lemma gate_mono (ok ok' : MaturityLevel -> bool) :
  (forall l, ok l = true -> ok' l = true) ->
  level_num (gate ok Scorer.levels L1) <= level_num (gate ok' Scorer.levels L1).
Proof.
  intros H. unfold Scorer.levels. cbn [gate].
  destruct (ok L1) eqn:E1; [rewrite (H _ E1) | destruct (ok' L1), (ok' L2), (ok' L3), (ok' L4), (ok' L5); simpl; lia].
  destruct (ok L2) eqn:E2; [rewrite (H _ E2) | destruct (ok' L2), (ok' L3), (ok' L4), (ok' L5); simpl; lia].
  destruct (ok L3) eqn:E3; [rewrite (H _ E3) | destruct (ok' L3), (ok' L4), (ok' L5); simpl; lia].
  destruct (ok L4) eqn:E4; [rewrite (H _ E4) | destruct (ok' L4), (ok' L5); simpl; lia].
  destruct (ok L5) eqn:E5; [rewrite (H _ E5) | destruct (ok' L5); simpl; lia].
  simpl. lia.
Qed.

Lemma neededExact_bounds (n p : Z) :
  0 <= n -> 0 <= p ->
  0 <= neededExact n <= n /\ (neededExact n <= p <-> 4 * n <= 5 * p).
Proof.
  intros Hn Hp. unfold neededExact.
  pose proof (Z.div_mod (4 * n + 4) 5 ltac:(lia)) as Hdm.
  pose proof (Z.mod_pos_bound (4 * n + 4) 5 ltac:(lia)) as Hmod.
  lia.
Qed.

(** X5. The progress figures against the gate, for a catalogue of up to
    128 counted criteria. [current], [needed] and [remaining] are never
    negative, [needed] is [ceil(4 * size / 5)] of the next level's bucket and
    never more than its size, and [remaining] is 0 exactly when that bucket
    would pass. When the level-1 bucket passes, the next level is the level
    that stopped the walk: its bucket does not pass and at least one more
    criterion is needed. (When level 1 itself fails the result is still level
    1 with next level 2, whose bucket may pass: see
    [progress_when_level_1_fails].) *)
Theorem progress_consistent_with_gate (pillars : list Pillar.t) (results : Results) :
  (length (Scorer.allCriteria pillars results) <= 128)%nat ->
  exists lr,
    Scorer.calculateLevel pillars results = Some lr /\
    let np := LevelResult.nextLevelProgress lr in
    0 <= LevelResult.current np /\
    0 <= LevelResult.remaining np <= LevelResult.needed np /\
    (forall nl, LevelResult.nextLevel np = Some nl ->
       let b := bucket pillars results nl in
       LevelResult.current np <= bucketSize b /\
       LevelResult.needed np = neededExact (bucketSize b) /\
       LevelResult.needed np <= bucketSize b /\
       (LevelResult.remaining np = 0 <-> passes b = true)) /\
    (passes (bucket pillars results L1) = true ->
     forall nl, LevelResult.nextLevel np = Some nl ->
       passes (bucket pillars results nl) = false /\ 1 <= LevelResult.remaining np).
Proof.
  intros Hsize. rewrite calculateLevel_closed. eexists. split; [reflexivity|].
  cbn [LevelResult.level LevelResult.nextLevelProgress].
  pose proof (gate_next_fails (fun l => passes (bucket pillars results l))) as Hnext.
  cbv beta in Hnext.
  set (hp := gate _ _ _) in *. clearbody hp.
  destruct (level_num hp <? 5) eqn:E;
    cbn [LevelResult.nextLevel LevelResult.current LevelResult.needed
         LevelResult.remaining].
  - apply Z.ltb_lt in E.
    set (b := bucket pillars results (level_succ hp)) in *.
    pose proof (passedCount_bounds b) as Hp.
    assert (Hlen : (length b <= 128)%nat).
    { subst b. pose proof (bucket_length_le pillars results (level_succ hp)). lia. }
    assert (Hneeded : Number.ceil (Number.mul (Number.of_Z (bucketSize b)) LEVEL_THRESHOLD)
                      = neededExact (bucketSize b)).
    { apply needed_exact. unfold bucketSize. lia. }
    rewrite Hneeded.
    assert (Hsz : 0 <= bucketSize b) by (unfold bucketSize; lia).
    destruct (neededExact_bounds (bucketSize b) (passedCount b) Hsz ltac:(lia))
      as [Hrange Hiff].
    assert (Hpass : Z.max 0 (neededExact (bucketSize b) - passedCount b) = 0
                    <-> passes b = true).
    { rewrite (passes_exact b Hlen). split.
      - intros H0. right. apply Hiff. lia.
      - intros [Hnil|Hle]; [rewrite Hnil; reflexivity|]. apply Hiff in Hle. lia. }
    split; [lia|]. split; [lia|]. split.
    + intros nl Hnl. injection Hnl as <-. fold b.
      split; [lia|]. split; [reflexivity|]. split; [lia | exact Hpass].
    + intros H1 nl Hnl. injection Hnl as <-. fold b.
      specialize (Hnext H1 E). fold b in Hnext.
      split; [exact Hnext|].
      destruct (Z.max 0 (neededExact (bucketSize b) - passedCount b)) eqn:Em; [|lia|lia].
      rewrite (proj1 Hpass eq_refl) in Hnext. discriminate.
  - split; [lia|]. split; [lia|]. split; intros; discriminate.
Qed.

(** ** A better result set *)

Lemma Forall2_flat_map_pointwise {X Y} (R : Y -> Y -> Prop) (f g : X -> list Y)
      (l : list X) :
  (forall x, In x l -> Forall2 R (f x) (g x)) ->
  Forall2 R (List.flat_map f l) (List.flat_map g l).
Proof.
  induction l as [|x l IH]; intros H; simpl; [constructor|].
  apply Forall2_app; [apply H; left; reflexivity|].
  apply IH. intros y Hy. apply H. right. exact Hy.
Qed.

Lemma collectCriterion_noWorse (prs prs' : list CriterionResult.t) (c : Criterion.t) :
  noWorse (Scorer.findResult prs c) (Scorer.findResult prs' c) ->
  Forall2 entryNoWorse (Scorer.collectCriterion prs c) (Scorer.collectCriterion prs' c).
Proof.
  intros [Hskip Hpass]. unfold Scorer.collectCriterion. rewrite <- Hskip.
  destruct (truthy _); [constructor|].
  constructor; [|constructor]. split; [reflexivity | exact Hpass].
Qed.

Lemma allCriteria_noWorse (pillars : list Pillar.t) (results results' : Results) :
  (forall p c, In p pillars -> In c (Pillar.criteria p) ->
               noWorse (Scorer.findResult (Scorer.pillarResultsOf results p) c)
                       (Scorer.findResult (Scorer.pillarResultsOf results' p) c)) ->
  Forall2 entryNoWorse (Scorer.allCriteria pillars results)
          (Scorer.allCriteria pillars results').
Proof.
  intros H. unfold Scorer.allCriteria.
  apply Forall2_flat_map_pointwise. intros p Hp.
  apply Forall2_flat_map_pointwise. intros c Hc.
  apply collectCriterion_noWorse. apply H; assumption.
Qed.

Lemma bucket_noWorse (all all' : list Scorer.entry) (lvl : MaturityLevel) :
  Forall2 entryNoWorse all all' ->
  Forall2 entryNoWorse
          (List.filter (fun c => level_eqb (Scorer.level c) lvl) all)
          (List.filter (fun c => level_eqb (Scorer.level c) lvl) all').
Proof.
  induction 1 as [|e e' all all' [Hl Hp] _ IH]; simpl; [constructor|].
  rewrite <- Hl. destruct (level_eqb (Scorer.level e) lvl); [|exact IH].
  constructor; [split; assumption | exact IH].
Qed.

Lemma counts_noWorse (b b' : list Scorer.entry) :
  Forall2 entryNoWorse b b' ->
  bucketSize b = bucketSize b' /\ passedCount b <= passedCount b'.
Proof.
  unfold bucketSize, passedCount.
  induction 1 as [|e e' b b' [Hl Hp] _ [IHs IHp]]; simpl; [lia|].
  split; [lia|].
  destruct (Scorer.pass e); [rewrite Hp by reflexivity|destruct (Scorer.pass e')];
    simpl; lia.
Qed.

Lemma passes_noWorse (b b' : list Scorer.entry) :
  (length b <= 128)%nat -> Forall2 entryNoWorse b b' ->
  passes b = true -> passes b' = true.
Proof.
  intros Hlen HF Hb. destruct (counts_noWorse b b' HF) as [Hs Hp].
  assert (Hlen' : (length b' <= 128)%nat) by (unfold bucketSize in Hs; lia).
  apply (passes_exact b Hlen) in Hb. apply (passes_exact b' Hlen').
  destruct Hb as [->|Hb].
  - left. inversion HF. reflexivity.
  - right. lia.
Qed.

(** X6. Improving results never lowers the level. For a catalogue of up to
    128 counted criteria and two result sets over it such that, for every
    criterion, the matched result of the second is skipped exactly when that
    of the first is and passes whenever that of the first does, the level
    computed from the second is at least the level computed from the
    first. *)
Theorem level_monotone (pillars : list Pillar.t) (results results' : Results) :
  (length (Scorer.allCriteria pillars results) <= 128)%nat ->
  (forall p c, In p pillars -> In c (Pillar.criteria p) ->
               noWorse (Scorer.findResult (Scorer.pillarResultsOf results p) c)
                       (Scorer.findResult (Scorer.pillarResultsOf results' p) c)) ->
  exists lr lr',
    Scorer.calculateLevel pillars results = Some lr /\
    Scorer.calculateLevel pillars results' = Some lr' /\
    level_num (LevelResult.level lr) <= level_num (LevelResult.level lr').
Proof.
  intros Hsize H. rewrite !calculateLevel_closed.
  eexists. eexists. split; [reflexivity|]. split; [reflexivity|].
  cbn [LevelResult.level]. apply gate_mono. intros l.
  apply passes_noWorse.
  - pose proof (bucket_length_le pillars results l). lia.
  - unfold bucket. apply bucket_noWorse. apply allCriteria_noWorse. exact H.
Qed.

(** ** The order of the catalogue *)

Lemma filter_perm {X} (f : X -> bool) (l l' : list X) :
  l ≡ₚ l' -> List.filter f l ≡ₚ List.filter f l'.
Proof.
  induction 1 as [|x l l' _ IH|x y l|l l' l'' _ IH1 _ IH2]; simpl.
  - reflexivity.
  - destruct (f x); [constructor|]; exact IH.
  - destruct (f x), (f y); try reflexivity. apply Permutation_swap.
  - etransitivity; eassumption.
Qed.

Lemma counts_perm (b b' : list Scorer.entry) :
  b ≡ₚ b' -> bucketSize b = bucketSize b' /\ passedCount b = passedCount b'.
Proof.
  intros H. unfold bucketSize, passedCount.
  rewrite (Permutation_length H), (Permutation_length (filter_perm Scorer.pass _ _ H)).
  split; reflexivity.
Qed.

Lemma passes_counts (b b' : list Scorer.entry) :
  bucketSize b = bucketSize b' -> passedCount b = passedCount b' -> passes b = passes b'.
Proof.
  intros Hs Hp. rewrite !passes_test.
  unfold bucketSize, passedCount in *. rewrite Hs, Hp. reflexivity.
Qed.

(** The level result is a function of the size and the passed count of the
    five buckets. *)
Lemma calculateLevel_by_counts (pillars pillars' : list Pillar.t) (results results' : Results) :
  (forall lvl, bucketSize (bucket pillars results lvl) = bucketSize (bucket pillars' results' lvl) /\
               passedCount (bucket pillars results lvl)
               = passedCount (bucket pillars' results' lvl)) ->
  Scorer.calculateLevel pillars results = Scorer.calculateLevel pillars' results'.
Proof.
  intros H. rewrite !calculateLevel_closed. cbv zeta.
  rewrite (gate_ext (fun l => passes (bucket pillars results l))
                    (fun l => passes (bucket pillars' results' l)))
    by (intros l; apply passes_counts; apply H).
  set (hp := gate _ _ _). clearbody hp.
  destruct (H (level_succ hp)) as [-> ->]. reflexivity.
Qed.

(** X7. The order of the catalogue does not matter to the level: any two
    inputs whose flattened, skip-filtered entries are the same up to order
    get the same level result; in particular the pillars may be reordered,
    which also only reorders the pillar scores. *)
Theorem level_ignores_catalogue_order (pillars pillars' : list Pillar.t) (results : Results) :
  pillars ≡ₚ pillars' ->
  Scorer.calculateLevel pillars results = Scorer.calculateLevel pillars' results /\
  Scorer.calculatePillarScores pillars results
  ≡ₚ Scorer.calculatePillarScores pillars' results /\
  (forall (ps ps' : list Pillar.t) (rs rs' : Results),
      Scorer.allCriteria ps rs ≡ₚ Scorer.allCriteria ps' rs' ->
      Scorer.calculateLevel ps rs = Scorer.calculateLevel ps' rs').
Proof.
  intros Hperm.
  assert (Hgen : forall (ps ps' : list Pillar.t) (rs rs' : Results),
             Scorer.allCriteria ps rs ≡ₚ Scorer.allCriteria ps' rs' ->
             Scorer.calculateLevel ps rs = Scorer.calculateLevel ps' rs').
  { intros ps ps' rs rs' Hall. apply calculateLevel_by_counts. intros lvl.
    apply counts_perm. unfold bucket. apply filter_perm. exact Hall. }
  split; [|split; [|exact Hgen]].
  - apply Hgen. unfold Scorer.allCriteria. apply Permutation_flat_map. exact Hperm.
  - unfold Scorer.calculatePillarScores. apply Permutation_map. exact Hperm.
Qed.

End LevelFacts.

(** * Further properties of the recommender *)

Section RankFacts.

Import RankSpec TwoKeys.

(** The ranker always returns the first ten of an arrangement of the
    candidates. *)
Lemma generateRecommendations_returns
      (pillars : list Pillar.t) (results : Results)
      (scores : list PillarScore.t) (lr : LevelResult.t) :
  exists sorted,
    Recommender.generateRecommendations pillars results scores lr = Some (take 10 sorted) /\
    sorted ≡ₚ List.map (Recommender.toRecommendation (LevelResult.level lr))
                       (candidates pillars results).
Proof.
  unfold Recommender.generateRecommendations. rewrite failedItems_candidates.
  destruct (sortBy_total
              (Recommender.compareRecommendations (candidates pillars results)
                                                  (level_num (LevelResult.level lr) + 1))
              (List.map (Recommender.toRecommendation (LevelResult.level lr))
                        (candidates pillars results)))
    as (sorted & Hsort & Hperm).
  { intros a b Ha Hb. eapply compare_is_Some; eassumption. }
  exists sorted. rewrite Hsort. split; [reflexivity | exact Hperm].
Qed.

Lemma In_take {X} (n : nat) (l : list X) (x : X) : In x (take n l) -> In x l.
Proof.
  intros H. rewrite <- (take_drop n l). apply List.in_or_app. left. exact H.
Qed.

(** X8. Impact at the ends of the scale. Every recommendation returned
    belongs to a catalogue criterion that failed; its impact is high exactly
    when that criterion is one level above the achieved level, and low
    whenever the criterion is at or below the achieved level. At level 5
    every recommendation has impact low; at level 4 none has impact
    medium. *)
Theorem recommendations_impact_at_bounds
        (pillars : list Pillar.t) (results : Results)
        (scores : list PillarScore.t) (lr : LevelResult.t) :
  exists recs,
    Recommender.generateRecommendations pillars results scores lr = Some recs /\
    forall rec, In rec recs ->
      exists p c,
        In p pillars /\ In c (Pillar.criteria p) /\ fails results (p, c) = true /\
        rec = Recommender.toRecommendation (LevelResult.level lr) (itemOf (p, c)) /\
        let cur := level_num (LevelResult.level lr) in
        let lvl := level_num (Criterion.level c) in
        (Recommendation.impact rec = Impact.high <-> lvl = cur + 1) /\
        (lvl <= cur -> Recommendation.impact rec = Impact.low) /\
        (cur = 5 -> Recommendation.impact rec = Impact.low) /\
        (cur = 4 -> Recommendation.impact rec <> Impact.medium).
Proof.
  destruct (generateRecommendations_returns pillars results scores lr)
    as (sorted & Hgen & Hperm).
  exists (take 10 sorted). split; [exact Hgen|].
  intros rec Hrec. apply In_take in Hrec.
  apply (Permutation_in _ Hperm) in Hrec.
  apply List.in_map_iff in Hrec as (item & <- & Hitem).
  unfold candidates in Hitem. apply List.in_map_iff in Hitem as ([p c] & <- & Hpc).
  apply List.filter_In in Hpc as [Hcat Hfails].
  unfold catalogue in Hcat. apply List.in_flat_map in Hcat as (q & Hq & Hc).
  apply List.in_map_iff in Hc as (c' & Heq & Hc'). injection Heq as <- <-.
  exists q, c'. split; [exact Hq|]. split; [exact Hc'|]. split; [exact Hfails|].
  split; [reflexivity|].
  cbn [Recommender.toRecommendation Recommendation.impact itemOf
       Recommender.criterionLevel snd].
  unfold Recommender.determineImpact.
  pose proof (level_num_range (Criterion.level c')) as Hr.
  pose proof (level_num_range (LevelResult.level lr)) as Hr'.
  destruct (Z.eqb_spec (level_num (Criterion.level c'))
                       (level_num (LevelResult.level lr) + 1));
    [|destruct (Z.eqb_spec (level_num (Criterion.level c'))
                           (level_num (LevelResult.level lr) + 2))];
    repeat split; intros; try reflexivity; try discriminate; try lia.
Qed.







End RankFacts.

(** * Properties of the serializer and of the command line *)

Section SerializerFacts.

Import Serializer.

Lemma level_num_inj (a b : MaturityLevel) : level_num a = level_num b -> a = b.
Proof. destruct a, b; simpl; intros H; try reflexivity; discriminate. Qed.

Lemma map_eq_Forall2 {X Y} (f : X -> Y) (l l' : list X) :
  List.map f l = List.map f l' -> Forall2 (fun x x' => f x = f x') l l'.
Proof.
  revert l'. induction l as [|x l IH]; intros [|x' l'] H; simpl in H;
    try discriminate; [constructor|].
  injection H as Hx Hl. constructor; [exact Hx | apply IH; exact Hl].
Qed.

Lemma flat_map_Forall2 {X Y} (f g : X -> list Y) (R : X -> X -> Prop) (l l' : list X) :
  Forall2 R l l' -> (forall x x', R x x' -> f x = g x') ->
  List.flat_map f l = List.flat_map g l'.
Proof.
  intros HF H. induction HF as [|x x' l l' Hx _ IH]; simpl; [reflexivity|].
  rewrite (H x x' Hx), IH. reflexivity.
Qed.

Lemma serializeCriterion_fields (c c' : Criterion.t) :
  serializeCriterion c = serializeCriterion c' ->
  Criterion.id c = Criterion.id c' /\ Criterion.name c = Criterion.name c' /\
  Criterion.level c = Criterion.level c'.
Proof.
  unfold serializeCriterion. intros H. injection H as Hid Hname _ _ Hlevel _.
  repeat split; [exact Hid | exact Hname | apply level_num_inj; exact Hlevel].
Qed.

Lemma serializePillar_fields (p p' : Pillar.t) :
  serializePillar p = serializePillar p' ->
  Pillar.id p = Pillar.id p' /\
  Forall2 (fun c c' => serializeCriterion c = serializeCriterion c')
          (Pillar.criteria p) (Pillar.criteria p').
Proof.
  unfold serializePillar. intros H. injection H as Hid _ _ _ Hcs.
  split; [exact Hid | apply map_eq_Forall2; exact Hcs].
Qed.

(** X11. The serialized report carries all that the scores are computed
    from: two catalogues with the same serialization (they can differ in
    their check functions only) get, for the same results, the same pillar
    scores, the same level result and the same recommendations; and
    [serializeReport] hands the results, the level result, the pillar scores
    and the recommendations on as they are, with one serialized pillar per
    pillar and one serialized criterion per criterion. *)
Theorem serialization_keeps_what_scoring_reads
        (pillars pillars' : list Pillar.t) (results : Results) :
  List.map serializePillar pillars = List.map serializePillar pillars' ->
  Scorer.calculatePillarScores pillars results
  = Scorer.calculatePillarScores pillars' results /\
  Scorer.calculateLevel pillars results = Scorer.calculateLevel pillars' results /\
  (forall scores lr,
      Recommender.generateRecommendations pillars results scores lr
      = Recommender.generateRecommendations pillars' results scores lr) /\
  (forall report,
      ReportData.pillars report = pillars ->
      let s := serializeReport report in
      SerializedReportData.pillars s = List.map serializePillar pillars' /\
      length (SerializedReportData.pillars s) = length pillars /\
      List.map (fun sp => length (SerializedPillar.criteria sp)) (SerializedReportData.pillars s)
      = List.map (fun p => length (Pillar.criteria p)) pillars /\
      SerializedReportData.results s = ReportData.results report /\
      SerializedReportData.levelResult s = ReportData.levelResult report /\
      SerializedReportData.pillarScores s = ReportData.pillarScores report /\
      SerializedReportData.recommendations s = ReportData.recommendations report).
Proof.
  intros Hser. pose proof (map_eq_Forall2 _ _ _ Hser) as HF.
  assert (Hall : Scorer.allCriteria pillars results = Scorer.allCriteria pillars' results).
  { unfold Scorer.allCriteria. eapply flat_map_Forall2; [exact HF|].
    intros p p' Hp. apply serializePillar_fields in Hp as [Hid Hcs].
    unfold Scorer.pillarResultsOf. rewrite Hid.
    eapply flat_map_Forall2; [exact Hcs|].
    intros c c' Hc. apply serializeCriterion_fields in Hc as (Hcid & _ & Hlvl).
    unfold Scorer.collectCriterion, Scorer.findResult. rewrite Hcid, Hlvl. reflexivity. }
  assert (Hitems : Recommender.failedItems pillars results
                   = Recommender.failedItems pillars' results).
  { unfold Recommender.failedItems. eapply flat_map_Forall2; [exact HF|].
    intros p p' Hp. apply serializePillar_fields in Hp as [Hid Hcs].
    unfold Scorer.pillarResultsOf. rewrite Hid.
    eapply flat_map_Forall2; [exact Hcs|].
    intros c c' Hc. apply serializeCriterion_fields in Hc as (Hcid & Hname & Hlvl).
    unfold Recommender.collectFailed, Scorer.findResult.
    rewrite Hcid, Hname, Hlvl, Hid. reflexivity. }
  split; [|split; [|split]].
  - unfold Scorer.calculatePillarScores. clear Hser Hall Hitems.
    induction HF as [|p p' l l' Hp _ IH]; simpl; [reflexivity|].
    rewrite IH. apply serializePillar_fields in Hp as [Hid _].
    unfold Scorer.scorePillar, Scorer.pillarResultsOf. rewrite Hid. reflexivity.
  - unfold Scorer.calculateLevel. rewrite Hall. reflexivity.
  - intros scores lr. unfold Recommender.generateRecommendations. rewrite Hitems.
    reflexivity.
  - intros report Hrep s. subst s. unfold serializeReport.
    cbn [SerializedReportData.pillars SerializedReportData.results
         SerializedReportData.levelResult SerializedReportData.pillarScores
         SerializedReportData.recommendations].
    rewrite Hrep. split; [exact Hser|]. split; [apply List.length_map|].
    split; [|repeat split].
    rewrite List.map_map. apply List.map_ext. intros p.
    unfold serializePillar. cbn [SerializedPillar.criteria]. apply List.length_map.
Qed.

End SerializerFacts.

Section ToggleFacts.

Import Cli Toggle RankSpec LevelSpec.

(** The kept criteria with their ids, pillar by pillar. *)
Lemma kept_catalogue (config : Config.t) (pillars : list Pillar.t) :
  List.map (fun pc => (idsOf pc, snd pc)) (List.filter (kept config) (catalogue pillars))
  = List.flat_map
      (fun p => if pillarOn config p
                then List.map (fun c => ((Pillar.id p, Criterion.id c), c))
                              (List.filter (criterionOn config) (Pillar.criteria p))
                else [])
      pillars.
Proof.
  unfold catalogue. induction pillars as [|p ps IH]; [reflexivity|].
  cbn [List.flat_map]. rewrite List.filter_app, List.map_app, IH. f_equal.
  unfold kept. clear IH.
  induction (Pillar.criteria p) as [|c cs IHc]; cbn [List.map List.filter fst snd].
  - destruct (pillarOn config p); reflexivity.
  - destruct (pillarOn config p); cbn [andb].
    + destruct (criterionOn config c); cbn [List.map]; rewrite IHc; reflexivity.
    + exact IHc.
Qed.

Lemma filterPillars_catalogue (config : Config.t) (pillars : list Pillar.t) :
  List.map (fun pc => (idsOf pc, snd pc)) (catalogue (filterPillars config pillars))
  = List.map (fun pc => (idsOf pc, snd pc)) (List.filter (kept config) (catalogue pillars)).
Proof.
  rewrite kept_catalogue.
  unfold filterPillars, catalogue, pillarOn, criterionOn.
  destruct (Config.pillars config) as [tp|], (Config.criteria config) as [tc|];
    induction pillars as [|p ps IH];
    cbn [List.flat_map List.map List.filter List.app]; try reflexivity.
  - destruct (enabledIn tp (Pillar.id p)); [|exact IH].
    cbn [List.flat_map List.map List.app Pillar.criteria]. rewrite List.map_app, IH.
    rewrite List.map_map. reflexivity.
  - destruct (enabledIn tp (Pillar.id p)); [|exact IH].
    cbn [List.flat_map List.app]. rewrite List.map_app, IH.
    rewrite List.map_map, List.filter_true. reflexivity.
  - rewrite List.map_app, IH, List.map_map. reflexivity.
  - rewrite List.map_app, IH, List.map_map, List.filter_true. reflexivity.
Qed.

Lemma In_catalogue (pillars : list Pillar.t) (p : Pillar.t) (c : Criterion.t) :
  In (p, c) (catalogue pillars) <-> In p pillars /\ In c (Pillar.criteria p).
Proof.
  unfold catalogue. rewrite List.in_flat_map. split.
  - intros (q & Hq & Hc). apply List.in_map_iff in Hc as (c' & Heq & Hc').
    injection Heq as -> ->. split; assumption.
  - intros [Hp Hc]. exists p. split; [exact Hp | apply List.in_map; exact Hc].
Qed.

(** A criterion with its pillar is in the configured catalogue exactly
    when it is a kept criterion of the shipped one, up to the rebuilt pillar
    record. *)
Lemma In_filterPillars (config : Config.t) (pillars : list Pillar.t) (c : Criterion.t)
      (pid : string) :
  (exists p', In p' (filterPillars config pillars) /\ In c (Pillar.criteria p') /\
              Pillar.id p' = pid) <->
  (exists p, In p pillars /\ In c (Pillar.criteria p) /\ Pillar.id p = pid /\
             pillarOn config p = true /\ criterionOn config c = true).
Proof.
  pose proof (filterPillars_catalogue config pillars) as Hcat.
  split.
  - intros (p' & Hp' & Hc & Hid).
    assert (Hin : In ((pid, Criterion.id c), c)
                     (List.map (fun pc => (idsOf pc, snd pc))
                               (catalogue (filterPillars config pillars)))).
    { apply List.in_map_iff. exists (p', c). unfold idsOf. cbn [fst snd].
      rewrite Hid. split; [reflexivity | apply In_catalogue; split; assumption]. }
    rewrite Hcat in Hin. apply List.in_map_iff in Hin as ([p c0] & Heq & Hin).
    unfold idsOf in Heq. cbn [fst snd] in Heq. injection Heq as Hpid _ ->.
    apply List.filter_In in Hin as [Hin Hkept].
    apply In_catalogue in Hin as [Hp Hc0].
    unfold kept in Hkept. cbn [fst snd] in Hkept.
    apply Bool.andb_true_iff in Hkept as [Hon Hcon].
    exists p. repeat split; assumption.
  - intros (p & Hp & Hc & Hid & Hon & Hcon).
    assert (Hin : In ((pid, Criterion.id c), c)
                     (List.map (fun pc => (idsOf pc, snd pc))
                               (List.filter (kept config) (catalogue pillars)))).
    { apply List.in_map_iff. exists (p, c). unfold idsOf. cbn [fst snd].
      rewrite Hid. split; [reflexivity|]. apply List.filter_In. split.
      - apply In_catalogue. split; assumption.
      - unfold kept. cbn [fst snd]. rewrite Hon, Hcon. reflexivity. }
    rewrite <- Hcat in Hin. apply List.in_map_iff in Hin as ([p' c0] & Heq & Hin).
    unfold idsOf in Heq. cbn [fst snd] in Heq. injection Heq as Hpid _ ->.
    apply In_catalogue in Hin as [Hp' Hc0].
    exists p'. repeat split; assumption.
Qed.





Lemma In_allCriteria (pillars : list Pillar.t) (results : Results) (e : Scorer.entry) :
  In e (Scorer.allCriteria pillars results) ->
  exists p c, In p pillars /\ In c (Pillar.criteria p) /\
              Scorer.level e = Criterion.level c.
Proof.
  unfold Scorer.allCriteria. intros H.
  apply List.in_flat_map in H as (p & Hp & H).
  apply List.in_flat_map in H as (c & Hc & H).
  exists p, c. split; [exact Hp|]. split; [exact Hc|].
  unfold Scorer.collectCriterion in H.
  destruct (truthy _); [destruct H|]. destruct H as [<-|[]]. reflexivity.
Qed.

(** X14. Switching off a whole level makes it pass: when every criterion
    of the shipped catalogue at a level is switched off (itself or with its
    pillar), that level's bucket is empty for every result set, so the level
    passes vacuously and is reached as soon as the levels below it pass. *)
Theorem disabling_a_level_passes_it
        (config : Config.t) (pillars : list Pillar.t) (L : MaturityLevel)
        (results : Results) :
  (forall p c, In p pillars -> In c (Pillar.criteria p) -> Criterion.level c = L ->
               pillarOn config p = false \/ criterionOn config c = false) ->
  let configured := filterPillars config pillars in
  bucket configured results L = [] /\
  passes (bucket configured results L) = true /\
  exists lr,
    Scorer.calculateLevel configured results = Some lr /\
    ((forall L', level_num L' < level_num L ->
                 passes (bucket configured results L') = true) ->
     level_num L <= level_num (LevelResult.level lr)).
Proof.
  intros Hoff configured.
  assert (Hempty : bucket configured results L = []).
  { unfold bucket. destruct (List.filter _ _) as [|e rest] eqn:E; [reflexivity|].
    exfalso.
    assert (He : In e (List.filter (fun c => level_eqb (Scorer.level c) L)
                                   (Scorer.allCriteria configured results)))
      by (rewrite E; left; reflexivity).
    apply List.filter_In in He as [He Hlvl]. apply level_eqb_eq in Hlvl.
    apply In_allCriteria in He as (p' & c & Hp' & Hc & Hec).
    destruct (proj1 (In_filterPillars config pillars c (Pillar.id p')))
      as (p & Hp & Hcp & _ & Hon & Hcon).
    { exists p'. repeat split; assumption. }
    destruct (Hoff p c Hp Hcp) as [H|H]; congruence. }
  split; [exact Hempty|]. rewrite Hempty. split; [reflexivity|].
  rewrite calculateLevel_closed. eexists. split; [reflexivity|].
  cbn [LevelResult.level]. intros Hbelow.
  apply (gate_reaches (fun l => passes (bucket configured results l))).
  intros L' HL'. destruct (Z.eq_dec (level_num L') (level_num L)) as [Heq|Hne].
  - apply level_num_inj in Heq. subst L'. rewrite Hempty. reflexivity.
  - apply Hbelow. lia.
Qed.

Lemma filterPillars_closed (config : Config.t) (pillars : list Pillar.t) :
  filterPillars config pillars
  = List.map (restrict config) (List.filter (pillarOn config) pillars).
Proof.
  unfold filterPillars, restrict, pillarOn.
  destruct (Config.pillars config) as [tp|], (Config.criteria config) as [tc|];
    rewrite ?List.filter_true, ?List.map_id; reflexivity.
Qed.

Lemma restrict_fields (config : Config.t) (p : Pillar.t) :
  Pillar.id (restrict config p) = Pillar.id p /\
  Pillar.criteria (restrict config p)
  = List.filter (criterionOn config) (Pillar.criteria p).
Proof.
  unfold restrict, criterionOn.
  destruct (Config.criteria config); cbn [Pillar.id Pillar.criteria];
    rewrite ?List.filter_true; split; reflexivity.
Qed.

Lemma filter_all_off {X} (f : X -> bool) (l : list X) :
  (forall x, In x l -> f x = false) -> List.filter f l = [].
Proof.
  induction l as [|x l IH]; intros H; simpl; [reflexivity|].
  rewrite (H x) by (left; reflexivity). apply IH. intros y Hy. apply H. right. exact Hy.
Qed.

(** X15. A pillar left without criteria stays in the report: when the
    pillars of the shipped catalogue have distinct ids, a pillar that is not
    switched off but whose criteria all are has an entry with no results in
    the map of the run, and its score is 0 passed of 0, 0 percent. *)
Theorem pillar_with_all_criteria_off_scores_zero
        (w : World.t) (options : CLIOptions.t) (info : ProjectInfo) (p : Pillar.t) :
  List.NoDup (List.map Pillar.id (World.ALL_PILLARS w)) ->
  In p (World.ALL_PILLARS w) ->
  pillarOn (World.config w) p = true ->
  (forall c, In c (Pillar.criteria p) -> criterionOn (World.config w) c = false) ->
  let pillars := filterPillars (World.config w) (World.ALL_PILLARS w) in
  let results := Analyzer.value (Analyzer.run (engineOf w options info)) in
  results !! Pillar.id p = Some [] /\
  In {| PillarScore.pillarId := Pillar.id p; PillarScore.passed := 0;
        PillarScore.total := 0; PillarScore.percentage := 0 |}
     (Scorer.calculatePillarScores pillars results).
Proof.
  intros Hnd Hp Hon Hoff pillars results.
  set (config := World.config w) in *.
  assert (Hin : In p (List.filter (pillarOn config) (World.ALL_PILLARS w)))
    by (apply List.filter_In; split; assumption).
  destruct (List.in_split _ _ Hin) as (l1 & l2 & Hsplit).
  assert (Hnd' : List.NoDup (List.map Pillar.id (l1 ++ p :: l2))).
  { rewrite <- Hsplit. apply NoDup_map_filter. exact Hnd. }
  rewrite List.map_app in Hnd'. apply List.NoDup_remove_2 in Hnd'.
  destruct (restrict_fields config p) as [Hid Hcs].
  rewrite (filter_all_off _ _ Hoff) in Hcs.
  assert (Hlookup : results !! Pillar.id p = Some []).
  { subst results. rewrite <- Hid.
    rewrite (run_lookup (engineOf w options info)
                        (List.map (restrict config) l1) (List.map (restrict config) l2)
                        (restrict config p)).
    - rewrite Hcs. reflexivity.
    - cbn [engineOf Analyzer.new Analyzer.pillars]. fold config.
      rewrite filterPillars_closed, Hsplit, List.map_app. reflexivity.
    - intros q Hq Heq. apply List.in_map_iff in Hq as (q0 & <- & Hq0).
      destruct (restrict_fields config q0) as [Hid0 _]. rewrite Hid0, Hid in Heq.
      apply Hnd'. apply List.in_or_app. right.
      rewrite <- Heq. apply List.in_map. exact Hq0. }
  split; [exact Hlookup|].
  unfold Scorer.calculatePillarScores. apply List.in_map_iff.
  exists (restrict config p). split.
  - unfold Scorer.scorePillar, Scorer.pillarResultsOf. rewrite Hid, Hlookup. reflexivity.
  - subst pillars. fold config. rewrite filterPillars_closed. apply List.in_map. exact Hin.
Qed.

End ToggleFacts.

Section MainFacts.

Import Cli Toggle.




Lemma SFltb_level_small (l : MaturityLevel) (k : Z) :
  0 <= k <= 10 ->
  SFltb (Number.of_Z (level_num l)) (Number.of_Z k) = (level_num l <? k).
Proof.
  intros Hk.
  assert (Hcases : k = 0 \/ k = 1 \/ k = 2 \/ k = 3 \/ k = 4 \/ k = 5 \/ k = 6 \/ k = 7 \/
                   k = 8 \/ k = 9 \/ k = 10) by lia.
  destruct l; repeat (destruct Hcases as [->|Hcases]; [vm_compute; reflexivity|]);
    subst k; vm_compute; reflexivity.
Qed.

(** X17. The minimum-level gate. Without [--min-level] the gate never
    fires; with a value that is not a number it never fires either; with a
    whole number from 0 to 10 it fires exactly when the achieved level is
    below it, so never for 0 or 1 and always for 6 and more. *)
Theorem min_level_gate (options : CLIOptions.t) (lr : LevelResult.t) :
  (CLIOptions.minLevel options = None -> belowMinLevel options lr = false) /\
  (CLIOptions.minLevel options = Some S754_nan -> belowMinLevel options lr = false) /\
  (forall k, 0 <= k <= 10 ->
             CLIOptions.minLevel options = Some (Number.of_Z k) ->
             belowMinLevel options lr = (level_num (LevelResult.level lr) <? k) /\
             (k <= 1 -> belowMinLevel options lr = false) /\
             (6 <= k -> belowMinLevel options lr = true)).
Proof.
  unfold belowMinLevel. split; [|split].
  - intros ->. reflexivity.
  - intros ->. destruct (LevelResult.level lr); reflexivity.
  - intros k Hk ->. rewrite (SFltb_level_small _ k Hk).
    pose proof (level_num_range (LevelResult.level lr)) as Hr.
    split; [reflexivity|]. split; intros Hb; [apply Z.ltb_ge | apply Z.ltb_lt]; lia.
Qed.




Lemma filter_none_app {X} (f : X -> bool) (l1 l2 : list X) :
  List.filter f l1 = [] -> List.filter f l2 = [] -> List.filter f (l1 ++ l2) = [].
Proof. intros H1 H2. rewrite List.filter_app, H1, H2. reflexivity. Qed.

Lemma In_filter_none {X} (f : X -> bool) (l : list X) (x : X) :
  List.filter f l = [] -> In x l -> f x = false.
Proof.
  intros Hnone Hin. destruct (f x) eqn:E; [|reflexivity].
  assert (H : In x (List.filter f l)) by (apply List.filter_In; split; assumption).
  rewrite Hnone in H. destruct H.
Qed.

Lemma finish_quiet (w : World.t) (options : CLIOptions.t) (report : ReportData.t)
      (out : list Output) :
  List.filter isWrite out = [] ->
  List.filter isWrite (fst (finish w options report out)) = [].
Proof.
  intros Hout. unfold finish. destruct (CLIOptions.web options).
  - destruct (World.startServer w _) as [url|err].
    + destruct (World.openBrowser w url) as [err|].
      * destruct (belowMinLevel _ _); cbn [fst];
          repeat apply filter_none_app; try exact Hout; reflexivity.
      * cbn [fst]. apply filter_none_app; [exact Hout | reflexivity].
    + destruct (belowMinLevel _ _); cbn [fst];
        apply filter_none_app; try exact Hout; reflexivity.
  - destruct (belowMinLevel _ _); exact Hout.
Qed.

Lemma analyze_writes_nothing (w : World.t) (options : CLIOptions.t) :
  List.filter isWrite (fst (analyze w options)) = [].
Proof.
  unfold analyze.
  set (out0 := if _ && _ then _ else _).
  assert (H0 : List.filter isWrite out0 = []) by (subst out0; destruct (_ && _); reflexivity).
  destruct (World.detected w) as [info|err].
  - destruct (Scorer.calculateLevel _ _) as [lr|].
    + destruct (Recommender.generateRecommendations _ _ _ _) as [recs|].
      * apply finish_quiet.
        repeat apply filter_none_app; try exact H0; try reflexivity.
        destruct (CLIOptions.format options); reflexivity.
      * unfold fail. cbn [fst]. repeat apply filter_none_app; try exact H0; reflexivity.
    + unfold fail. cbn [fst]. repeat apply filter_none_app; try exact H0; reflexivity.
  - unfold fail. cbn [fst]. apply filter_none_app; [exact H0 | reflexivity].
Qed.

Lemma analyze_runs_only_when_detected (w : World.t) (options : CLIOptions.t) (events : list Analyzer.Event) :
  In (Engine events) (fst (analyze w options)) ->
  exists info, World.detected w = Resolved info.
Proof.
  unfold analyze. destruct (World.detected w) as [info|err]; [eauto|].
  intros Hin. unfold fail in Hin. cbn [fst] in Hin.
  apply List.in_app_or in Hin as [Hin|Hin].
  - destruct (_ && _); [|destruct Hin]. destruct Hin as [H|[]]. discriminate H.
  - destruct Hin as [H|[]]. discriminate H.
Qed.

(** X19. What [main] does before any analysis. On a path that does not
    exist it prints the error and exits with code 1. It writes a file only
    for [--init], only when no configuration file exists yet, and only the
    configuration file: an existing one is never overwritten (exit code 1
    instead). The engine runs only without [--init], on an existing path,
    after the project detection succeeded. *)
Theorem main_writes_only_on_init (w : World.t) (options : CLIOptions.t) :
  (World.repoExists w = false ->
   main w options
   = ([ConsoleError (String.append "Error: path does not exist: " (World.repoPath w))],
      Exit 1)) /\
  (forall path,
      In (WroteFile path) (fst (main w options)) <->
      World.repoExists w = true /\ CLIOptions.init options = true /\
      World.configExists w = false /\ World.writeConfig w = None /\
      path = World.configPath w) /\
  (World.repoExists w = true -> CLIOptions.init options = true ->
   World.configExists w = true -> snd (main w options) = Exit 1) /\
  (forall events,
      In (Engine events) (fst (main w options)) ->
      World.repoExists w = true /\ CLIOptions.init options = false /\
      exists info, World.detected w = Resolved info).
Proof.
  unfold main.
  destruct (World.repoExists w); cbn [negb].
  2:{ split; [reflexivity|]. split; [|split].
      - intros path. split.
        + intros [H|[]]. discriminate H.
        + intros [H _]. discriminate H.
      - intros H. discriminate H.
      - intros events [H|[]]. discriminate H. }
  split; [intros H; discriminate H|].
  destruct (CLIOptions.init options).
  - destruct (World.configExists w).
    + split; [|split].
      * intros path. split.
        -- intros [H|[]]. discriminate H.
        -- intros (_ & _ & H & _). discriminate H.
      * reflexivity.
      * intros events [H|[]]. discriminate H.
    + destruct (World.writeConfig w) as [err|].
      * split; [|split].
        -- intros path. split.
           ++ intros [H|[]]. discriminate H.
           ++ intros (_ & _ & _ & H & _). discriminate H.
        -- intros _ _ H. discriminate H.
        -- intros events [H|[]]. discriminate H.
      * split; [|split].
        -- intros path. split.
           ++ intros [H|[H|[]]]; [|discriminate H]. injection H as <-. repeat split.
           ++ intros (_ & _ & _ & _ & ->). left. reflexivity.
        -- intros _ _ H. discriminate H.
        -- intros events [H|[H|[]]]; discriminate H.
  - split; [|split].
    + intros path. split.
      * intros Hin. pose proof (In_filter_none _ _ _ (analyze_writes_nothing w options) Hin) as H.
        discriminate H.
      * intros (_ & H & _). discriminate H.
    + intros _ H. discriminate H.
    + intros events Hin. split; [reflexivity|]. split; [reflexivity|].
      eapply analyze_runs_only_when_detected. exact Hin.
Qed.

End MainFacts.

Section ConfigFileFacts.

Import ConfigFile.

(** X20. Which configuration file is read. [.kodus-readiness.yml] comes
    first: unless reading it fails with [ENOENT], the outcome depends on it
    alone and [.kodus-readiness.yaml] is not consulted; a file that parses
    gives its configuration (the empty one for an empty document) without
    warning, any other failure gives one warning and the empty
    configuration, even when a valid [.yaml] exists. When [.yml] is missing
    the same holds of [.yaml], and when both are missing the result is the
    empty configuration without warning. *)
Theorem loadConfig_precedence (join : string -> string -> string)
        (read : string -> ReadResult) (repoPath : string) :
  let yml := join repoPath ".kodus-readiness.yml" in
  let yaml := join repoPath ".kodus-readiness.yaml" in
  let missing (r : ReadResult) :=
    match r with
    | Threw (ThrownError _) (Some code) => String.eqb code "ENOENT"
    | _ => false
    end in
  let settle (path : string) (r : ReadResult) :=
    match r with
    | Parsed parsed => ([], default emptyConfig parsed)
    | Threw error _ => ([parseWarning path error], emptyConfig)
    end in
  (missing (read yml) = false -> loadConfig join read repoPath = settle yml (read yml)) /\
  (missing (read yml) = false ->
   forall read', read' yml = read yml ->
                 loadConfig join read' repoPath = loadConfig join read repoPath) /\
  (missing (read yml) = true -> missing (read yaml) = false ->
   loadConfig join read repoPath = settle yaml (read yaml)) /\
  (missing (read yml) = true -> missing (read yaml) = true ->
   loadConfig join read repoPath = ([], emptyConfig)) /\
  (length (fst (loadConfig join read repoPath)) <= 1)%nat /\
  (fst (loadConfig join read repoPath) <> [] ->
   snd (loadConfig join read repoPath) = emptyConfig).
Proof.
  intros yml yaml missing settle.
  assert (Hyml : missing (read yml) = false ->
                 loadConfig join read repoPath = settle yml (read yml)).
  { unfold loadConfig, CONFIG_FILENAMES. cbn [tryFiles]. fold yml.
    subst missing settle. cbv beta.
    destruct (read yml) as [parsed|[e|e] [code|]]; cbn [isNodeError andb];
      try reflexivity.
    intros ->. reflexivity. }
  assert (Hyaml : missing (read yml) = true ->
                  loadConfig join read repoPath
                  = if missing (read yaml) then ([], emptyConfig) else settle yaml (read yaml)).
  { unfold loadConfig, CONFIG_FILENAMES. cbn [tryFiles]. fold yml. fold yaml.
    subst missing settle. cbv beta.
    destruct (read yml) as [parsed|[e|e] [code|]]; try discriminate.
    cbn [isNodeError andb]. intros ->.
    destruct (read yaml) as [parsed|[e'|e'] [code'|]]; cbn [isNodeError andb];
      reflexivity. }
  split; [exact Hyml|]. split; [|split; [|split; [|split]]].
  - intros Hm read' Hsame.
    unfold loadConfig, CONFIG_FILENAMES. cbn [tryFiles]. fold yml. rewrite Hsame.
    subst missing. cbv beta in Hm.
    destruct (read yml) as [parsed|[e|e] [code|]]; cbn [isNodeError andb];
      try reflexivity.
    rewrite Hm. reflexivity.
  - intros H1 H2. rewrite (Hyaml H1), H2. reflexivity.
  - intros H1 H2. rewrite (Hyaml H1), H2. reflexivity.
  - destruct (missing (read yml)) eqn:E1.
    + rewrite (Hyaml eq_refl). destruct (missing (read yaml)); [cbn; lia|].
      subst settle. cbv beta. destruct (read yaml); cbn; lia.
    + rewrite (Hyml eq_refl). subst settle. cbv beta. destruct (read yml); cbn; lia.
  - destruct (missing (read yml)) eqn:E1.
    + rewrite (Hyaml eq_refl). destruct (missing (read yaml)); [intros _; reflexivity|].
      subst settle. cbv beta.
      destruct (read yaml); cbn [fst snd]; intros H;
        [exfalso; apply H; reflexivity | reflexivity].
    + rewrite (Hyml eq_refl). subst settle. cbv beta.
      destruct (read yml); cbn [fst snd]; intros H;
        [exfalso; apply H; reflexivity | reflexivity].
Qed.

End ConfigFileFacts.

(** * Instances of the further properties *)

Section ExtraInstances.

Import LevelSpec RankSpec EngineSpec RunSpec Improve TwoKeys Toggle Scenario CliScenario.

Lemma engine_results_in_scoring_witness :
  let this := engineWith pillarsD None None in
  let style := pillar "style" [passing "style" "linter" L1; crashing "style" "formatter" L1] in
  let c := crashing "style" "formatter" L1 in
  Analyzer.pillars this = [] ++ style :: [pillar "testing" [failing "testing" "test-files" L2]] /\
  Pillar.criteria style = [passing "style" "linter" L1] ++ c :: [] /\
  Scorer.collectCriterion (Scorer.pillarResultsOf (Analyzer.value (Analyzer.run this)) style) c
  = [ {| Scorer.level := L1; Scorer.pass := false |} ] /\
  fails (Analyzer.value (Analyzer.run this)) (style, c) = true.
Proof.
  split; [reflexivity|]. split; [reflexivity|].
  destruct (engine_results_in_scoring
              (engineWith pillarsD None None) []
              [pillar "testing" [failing "testing" "test-files" L2]]
              (pillar "style" [passing "style" "linter" L1; crashing "style" "formatter" L1])
              [passing "style" "linter" L1] [] (crashing "style" "formatter" L1))
    as [_ Hcrashed].
  - reflexivity.
  - intros q [<-|[]]. discriminate.
  - reflexivity.
  - intros c' [<-|[]]. vm_compute. discriminate.
  - apply (Hcrashed eq_refl (ThrownError "ENOENT: no such file") eq_refl).
Defined.

(** Level 1 fails while level 2 is complete: the result is level 1 with
    next level 2 and nothing left to do at level 2. *)
Example progress_when_level_1_fails :
  let pillars := [pillar "style" [failing "style" "editorconfig" L1;
                                  passing "style" "linter" L2]] in
  Scorer.calculateLevel pillars (resultsOf pillars)
  = Some {| LevelResult.level := L1;
            LevelResult.nextLevelProgress :=
              {| LevelResult.current := 1;
                 LevelResult.needed := 1;
                 LevelResult.remaining := 0;
                 LevelResult.nextLevel := Some L2 |} |}.
Proof. vm_compute. reflexivity. Qed.

Lemma progress_consistent_with_gate_witness :
  (length (Scorer.allCriteria pillarsA resultsA) <= 128)%nat /\
  exists lr,
    Scorer.calculateLevel pillarsA resultsA = Some lr /\
    1 <= LevelResult.remaining (LevelResult.nextLevelProgress lr)
    <= LevelResult.needed (LevelResult.nextLevelProgress lr).
Proof.
  assert (Hsize : (length (Scorer.allCriteria pillarsA resultsA) <= 128)%nat)
    by (vm_compute; lia).
  split; [exact Hsize|].
  destruct (progress_consistent_with_gate pillarsA resultsA Hsize)
    as (lr & Hlr & _ & Hrem & _ & Hgate).
  exists lr. split; [exact Hlr|].
  assert (Hnl : LevelResult.nextLevel (LevelResult.nextLevelProgress lr) = Some L2).
  { vm_compute in Hlr. injection Hlr as <-. reflexivity. }
  destruct (Hgate ltac:(vm_compute; reflexivity) L2 Hnl) as [_ Hone]. lia.
Defined.

Lemma level_monotone_witness :
  (length (Scorer.allCriteria lonePillar loneFailed) <= 128)%nat /\
  exists lr lr',
    Scorer.calculateLevel lonePillar loneFailed = Some lr /\
    Scorer.calculateLevel lonePillar lonePassed = Some lr' /\
    level_num (LevelResult.level lr) <= level_num (LevelResult.level lr').
Proof.
  assert (Hsize : (length (Scorer.allCriteria lonePillar loneFailed) <= 128)%nat)
    by (vm_compute; lia).
  split; [exact Hsize|].
  apply (level_monotone lonePillar loneFailed lonePassed Hsize).
  intros p c [<-|[]] [<-|[]]. split; [reflexivity|]. vm_compute. discriminate.
Defined.

Lemma level_ignores_catalogue_order_witness :
  pillarsA ≡ₚ List.rev pillarsA /\
  Scorer.calculateLevel pillarsA resultsA = Scorer.calculateLevel (List.rev pillarsA) resultsA.
Proof.
  split; [apply Permutation_rev|].
  destruct (level_ignores_catalogue_order pillarsA (List.rev pillarsA) resultsA
                                          (Permutation_rev pillarsA)) as [Hlevel _].
  exact Hlevel.
Defined.



Lemma serialization_keeps_what_scoring_reads_witness :
  List.map Serializer.serializePillar pillarsA = List.map Serializer.serializePillar pillarsA' /\
  Scorer.calculateLevel pillarsA resultsA = Scorer.calculateLevel pillarsA' resultsA.
Proof.
  split; [reflexivity|].
  destruct (serialization_keeps_what_scoring_reads pillarsA pillarsA' resultsA eq_refl)
    as (_ & Hlevel & _).
  exact Hlevel.
Defined.



Lemma disabling_a_level_passes_it_witness :
  (forall p c, In p shipped -> In c (Pillar.criteria p) ->
               Criterion.level c = L2 ->
               pillarOn config p = false \/ criterionOn config c = false) /\
  forall results, bucket (Cli.filterPillars config shipped) results L2 = [].
Proof.
  assert (Hoff : forall p c, In p shipped -> In c (Pillar.criteria p) ->
                             Criterion.level c = L2 ->
                             pillarOn config p = false \/ criterionOn config c = false).
  { intros p c [<-|[<-|[<-|[]]]].
    - intros [<-|[<-|[]]] Hl; discriminate Hl.
    - intros _ _. left. vm_compute. reflexivity.
    - intros [<-|[]] Hl. discriminate Hl. }
  split; [exact Hoff|].
  intros results.
  destruct (disabling_a_level_passes_it config shipped L2 results Hoff)
    as [Hempty _].
  exact Hempty.
Defined.

Lemma pillar_with_all_criteria_off_scores_zero_witness :
  let w := withConfig world styleOff in
  let style := pillar "style" [passing "style" "linter" L1; crashing "style" "formatter" L1] in
  List.NoDup (List.map Pillar.id (Cli.World.ALL_PILLARS w)) /\
  In style (Cli.World.ALL_PILLARS w) /\
  Analyzer.value (Analyzer.run (Cli.engineOf w (options false false None) info)) !! "style"
  = Some [].
Proof.
  assert (Hnd : List.NoDup (List.map Pillar.id (Cli.World.ALL_PILLARS (withConfig world styleOff)))).
  { apply NoDup_ListNoDup. apply (bool_decide_unpack _). vm_compute. exact I. }
  split; [exact Hnd|]. split; [left; reflexivity|].
  destruct (pillar_with_all_criteria_off_scores_zero
              (withConfig world styleOff) (options false false None) info
              (pillar "style" [passing "style" "linter" L1; crashing "style" "formatter" L1])
              Hnd) as [Hlookup _].
  - left. reflexivity.
  - reflexivity.
  - intros c [<-|[<-|[]]]; vm_compute; reflexivity.
  - exact Hlookup.
Defined.


(** The same repository at the command line: level 1 without a
    configuration, so [--min-level 3] fails; with the failing parts switched
    off every remaining level passes and the gate lets it through; with the
    dashboard requested the process is kept alive and the gate is not
    reached. *)
Example main_endings :
  snd (Cli.main (withConfig world noConfig) (options false false (Some 3))) = Cli.Exit 1 /\
  snd (Cli.main world (options false false (Some 3))) = Cli.Exit 0 /\
  snd (Cli.main (withConfig world noConfig) (options false true (Some 3))) = Cli.Serving.
Proof. repeat split; vm_compute; reflexivity. Qed.

End ExtraInstances.
